(** * Order API (express-app/app.js) and the echo function

    A shallow embedding of the Express route handlers of [app.js] and of
    the Lambda handler that greets with a keyword.

    The handlers are written in a small monad that threads the handler's
    local variable [conn], the state of the database side (tables, pool,
    pending failures) and the list of observable events (driver calls,
    console output, the response).  Exceptions are part of the monad,
    because the handlers are built around [try]/[catch]/[finally]; the
    state and the events survive a throw, which is why the monad is
    written out here instead of stacking a state transformer on [sum].

    What the repository does not contain is taken as a parameter of
    section [App]: the express-validator checks on one value, the way
    MariaDB compares the column [ord_no] with a bound parameter, the
    value a column holds after a parameter was bound to it, and the
    insert id reported by the server, as a Number or as a BigInt. *)

From Stdlib Require Import Ascii QArith.
From stdpp Require Import base gmap strings list.

Local Open Scope nat_scope.

(** ** JavaScript values *)

(** The values that travel through the handlers: what [JSON.parse] puts
    in [req.body], what is bound to a statement, what a row holds. *)
#[warnings="-register-all"]
Inductive jsval : Type :=
| JUndefined
| JNull
| JBool (b : bool)
| JNum (q : Q)
| JStr (s : string)
| JArr (items : list jsval)
| JObj (fields : list (string * jsval)).

(** [{ message: text }] *)
Definition message_obj (text : string) : jsval :=
  JObj [("message", JStr text)].

(** What a handler can hand to [res.json]: data as above, a BigInt (the
    connector reports [insertId] as one unless told otherwise), or an
    object literal with such properties.  The rows of the two tables are
    data: their columns are numbers, decimals, dates and strings. *)
#[warnings="-register-all"]
Inductive value : Type :=
| Data (v : jsval)
| BigInt (z : Z)
| Object (fields : list (string * value)).

(** [JSON.stringify(value)] as [res.json] calls it: the data sent, or
    nothing when a BigInt is met, on which [JSON.stringify] throws a
    TypeError. *)
Fixpoint stringify (a : value) : option jsval :=
  match a with
  | Data v => Some v
  | BigInt _ => None
  | Object fields =>
      option_map JObj
        ((fix properties (l : list (string * value)) : option (list (string * jsval)) :=
            match l with
            | [] => Some []
            | (k, x) :: rest =>
                match stringify x, properties rest with
                | Some v, Some vs => Some ((k, v) :: vs)
                | _, _ => None
                end
            end) fields)
  end.

Definition bigint_error : string :=
  "TypeError: Do not know how to serialize a BigInt".

(** ** Requests *)

(** [req.params.id] is a path segment, hence a string; [req.body] is the
    object produced by [bodyParser.json()]. *)
Record request : Type := mk_request {
  params_id : string;
  body : gmap string jsval
}.

(** Reading a property of [req.body]: a missing property is [undefined]. *)
Definition prop (o : gmap string jsval) (k : string) : jsval :=
  default JUndefined (o !! k).

(** ** express-validator chains *)

(** One entry of [errors.array()]. *)
Record verror : Type := mk_verror {
  ve_path : string;
  ve_msg : string;
  ve_value : jsval
}.

(** A chain built by [body(field)]: the field it reads, whether
    [.optional()] was called, and its validators with their messages. *)
Record chain : Type := mk_chain {
  c_path : string;
  c_optional : bool;
  c_validators : list ((jsval -> bool) * string)
}.

Definition body_ (field : string) : chain :=
  mk_chain field false [].

Definition optional (c : chain) : chain :=
  mk_chain (c_path c) true (c_validators c).

(** A standard validator appended to the chain, with the library's
    default message. *)
Definition validator (check : jsval -> bool) (c : chain) : chain :=
  mk_chain (c_path c) (c_optional c) (c_validators c ++ [(check, "Invalid value")]).

(** [.withMessage(m)] sets the message of the last validator. *)
Definition withMessage (m : string) (c : chain) : chain :=
  mk_chain (c_path c) (c_optional c)
    (match rev (c_validators c) with
     | [] => []
     | (check, _) :: earlier => rev earlier ++ [(check, m)]
     end).

Definition is_undefined (v : jsval) : bool :=
  match v with JUndefined => true | _ => false end.

(** The values a standard validator is run on: the elements of an
    array, the value itself otherwise. *)
Definition values (v : jsval) : list jsval :=
  match v with
  | JArr items => items
  | _ => [v]
  end.

(** One standard validator run on a field: every value that fails the
    check is reported, with the path of the field, the message of the
    validator and the failing value. *)
Definition field_errors (path msg : string) (check : jsval -> bool) (v : jsval)
  : list verror :=
  flat_map (fun x : jsval => if check x then [] else [mk_verror path msg x])
           (values v).

(** The verdict of a validator on a field: no value fails the check. *)
Definition passes (check : jsval -> bool) (v : jsval) : bool :=
  forallb check (values v).

(** Running one chain on a body: an optional chain is skipped when the
    field is [undefined]; otherwise every validator of the chain is run
    on the field. *)
Definition run_chain (b : gmap string jsval) (c : chain) : list verror :=
  let v := prop b (c_path c) in
  if c_optional c && is_undefined v then []
  else flat_map (fun vm : (jsval -> bool) * string =>
                   field_errors (c_path c) (snd vm) (fst vm) v)
                (c_validators c).

(** [validationResult(req)] after the chains of a route have run. *)
Definition validationResult (chains : list chain) (req : request) : list verror :=
  flat_map (run_chain (body req)) chains.

(** [errors.isEmpty()] *)
Definition isEmpty (errors : list verror) : bool :=
  match errors with [] => true | _ => false end.

(** ** The database side *)

(** A row of table [orders], by column. *)
Record order : Type := mk_order {
  ord_no : jsval;
  purch_amt : jsval;
  ord_date : jsval;
  customer_id : jsval
}.

(** The row object handed back by the driver for a row of [orders]. *)
Definition order_row (o : order) : jsval :=
  JObj [("ord_no", ord_no o); ("purch_amt", purch_amt o);
        ("ord_date", ord_date o); ("customer_id", customer_id o)].

(** What [conn.query] resolves to: an array of rows for a SELECT, an OK
    packet for INSERT, UPDATE and DELETE.  The packet carries its
    [insertId] as a Number or, in [OkPacketBigInt], as a BigInt. *)
Inductive qresult : Type :=
| Rows (rows : list jsval)
| OkPacket (affectedRows : nat) (insertId : jsval)
| OkPacketBigInt (affectedRows : nat) (insertId : Z).

(** The insert id as the connector reports it for an INSERT: a Number
    (connector 2, or the option [insertIdAsNumber]) or a BigInt
    (connector 3 by default). *)
Inductive reported_id : Type :=
| AsNumber (q : Q)
| AsBigInt (z : Z).

(** The database side as one request sees it.  [script] lists the
    outcome of the driver calls still to come: [Some e] makes the next
    call reject with [e] (connectivity loss, constraint violation,
    timeout, ...), [None] lets it through; an empty script lets every
    call through. *)
Record world : Type := mk_world {
  customer : list jsval;
  orders : list order;
  script : list (option string);
  in_use : nat;
  next_conn : nat
}.

(** [connectionLimit: 10] *)
Definition connectionLimit : nat := 10.

(** ** Observable events *)

(** A response body: [res.json(v)] or [res.send(text)]; the list of
    validation errors is kept as such (its JSON layout is the
    library's). *)
Inductive payload : Type :=
| Json (v : jsval)
| Errors (errors : list verror)
| Text (s : string).

(** [EvAcquired]/[EvAcquireFailed]: how [pool.getConnection()] settled;
    [EvQuery]: a statement submitted on a connection, with how it
    settled; [EvEnd]: [conn.end()]; [EvConsoleError]: [console.error];
    [EvSend]: the response. *)
Inductive event : Type :=
| EvAcquired (c : nat)
| EvAcquireFailed (err : string)
| EvQuery (c : nat) (sql : string) (params : list jsval) (outcome : string + qresult)
| EvEnd (c : nat)
| EvConsoleError (label err : string)
| EvSend (status : nat) (content : payload).

(** ** The handler monad *)

Inductive completion (A : Type) : Type :=
| Normal (a : A)
| Throw (err : string).
Arguments Normal {A} a.
Arguments Throw {A} err.

(** The local variable of a handler: [let conn;]. *)
Record frame : Type := mk_frame { conn : option nat }.

Definition M (A : Type) : Type :=
  frame -> world -> completion A * frame * world * list event.

Definition ret {A : Type} (a : A) : M A :=
  fun f w => (Normal a, f, w, []).

Definition bind {A B : Type} (m : M A) (k : A -> M B) : M B :=
  fun f w =>
    let '(r, f1, w1, t1) := m f w in
    match r with
    | Normal a => let '(r2, f2, w2, t2) := k a f1 w1 in (r2, f2, w2, t1 ++ t2)
    | Throw e => (Throw e, f1, w1, t1)
    end.

Declare Scope handler_scope.
Delimit Scope handler_scope with handler.
Notation "x <- m ;; k" := (bind m (fun x => k))
  (at level 100, m at next level, right associativity) : handler_scope.
Notation "m ;; k" := (bind m (fun _ => k))
  (at level 100, right associativity) : handler_scope.

(** [try { body } catch (err) { handler } finally { cleanup }]: the
    cleanup runs last on every path; a throw of the cleanup replaces the
    completion of what ran before it. *)
Definition try_catch_finally {A : Type}
    (body : M A) (handler : string -> M A) (cleanup : M unit) : M A :=
  fun f w =>
    let '(r1, f1, w1, t1) := body f w in
    let '(r2, f2, w2, t2) :=
      match r1 with
      | Normal a => (Normal a, f1, w1, [])
      | Throw e => handler e f1 w1
      end in
    let '(r3, f3, w3, t3) := cleanup f2 w2 in
    (match r3 with Normal _ => r2 | Throw e => Throw e end,
     f3, w3, t1 ++ t2 ++ t3).

Definition emit (e : event) : M unit :=
  fun f w => (Normal tt, f, w, [e]).

(** [conn = value] and reading [conn]. *)
Definition set_conn (c : nat) : M unit :=
  fun _ w => (Normal tt, mk_frame (Some c), w, []).

Definition get_conn : M (option nat) :=
  fun f w => (Normal (conn f), f, w, []).

(** [console.error(label, err)] *)
Definition console_error (label err : string) : M unit :=
  emit (EvConsoleError label err).

(** [throw err] *)
Definition throw {A : Type} (err : string) : M A :=
  fun f w => (Throw err, f, w, []).

(** [res.status(s).json(v)], [res.json(v)], [res.status(s).send(text)].
    [res.json] serializes its argument before it sends anything, so a
    value that cannot be serialized makes it throw with nothing sent. *)
Definition res_status_json (status : nat) (v : value) : M unit :=
  match stringify v with
  | Some data => emit (EvSend status (Json data))
  | None => throw bigint_error
  end.

Definition res_json (v : value) : M unit :=
  res_status_json 200 v.

Definition res_status_send (status : nat) (text : string) : M unit :=
  emit (EvSend status (Text text)).

Definition res_status_errors (status : nat) (errors : list verror) : M unit :=
  emit (EvSend status (Errors errors)).

(** ** A sample instance of the parameters

    The validators, the comparison, the stored value and the insert id
    belong to express-validator and MariaDB.  The instance below is what
    the examples run on: validators that accept JSON numbers and the
    plain decimal, date and non-empty strings, a numeric comparison of
    [ord_no] with the bound parameter, columns that give back what was
    bound ([undefined] bound as NULL), and a table [orders] without an
    AUTO_INCREMENT column, for which the server reports insert id 0:
    as a Number in [insert_id], as a BigInt in [insert_id_bigint]. *)
Module Sample.

Definition is_digit (a : ascii) : bool :=
  (48 <=? nat_of_ascii a) && (nat_of_ascii a <=? 57).

Fixpoint all_digits (s : string) : bool :=
  match s with
  | EmptyString => true
  | String a rest => is_digit a && all_digits rest
  end.

Definition is_decimal (s : string) : bool :=
  negb (String.eqb s EmptyString) && all_digits s.

Fixpoint digits_and_dots (dots : nat) (s : string) : bool :=
  match s with
  | EmptyString => true
  | String a rest =>
      if is_digit a then digits_and_dots dots rest
      else if Ascii.eqb a "." then
        match dots with
        | 0 => false
        | S d => digits_and_dots d rest
        end
      else false
  end.

Definition isNumeric (v : jsval) : bool :=
  match v with
  | JNum _ => true
  | JStr s => is_decimal s
  | _ => false
  end.

Definition isFloat (v : jsval) : bool :=
  match v with
  | JNum _ => true
  | JStr s =>
      negb (String.eqb s EmptyString) && negb (String.eqb s ".") && digits_and_dots 1 s
  | _ => false
  end.

Definition two_digits (a b : ascii) : nat :=
  10 * (nat_of_ascii a - 48) + (nat_of_ascii b - 48).

(** Calendar dates written [YYYY-MM-DD], month 01 to 12, day 01 to 31. *)
Definition isISO8601 (v : jsval) : bool :=
  match v with
  | JStr (String y1 (String y2 (String y3 (String y4 (String h1
         (String m1 (String m2 (String h2 (String d1 (String d2 EmptyString)))))))))) =>
      forallb is_digit [y1; y2; y3; y4; m1; m2; d1; d2]
      && Ascii.eqb h1 "-" && Ascii.eqb h2 "-"
      && (1 <=? two_digits m1 m2) && (two_digits m1 m2 <=? 12)
      && (1 <=? two_digits d1 d2) && (two_digits d1 d2 <=? 31)
  | _ => false
  end.

Definition notEmpty (v : jsval) : bool :=
  match v with
  | JUndefined | JNull => false
  | JStr s => negb (String.eqb s EmptyString)
  | JArr [] => false
  | _ => true
  end.

Fixpoint digits_value (acc : Z) (s : string) : Z :=
  match s with
  | EmptyString => acc
  | String a rest => digits_value (10 * acc + Z.of_nat (nat_of_ascii a - 48)) rest
  end.

(** The integer a value stands for, when it is one. *)
Definition as_integer (v : jsval) : option Z :=
  match v with
  | JNum q => if Pos.eqb (Qden q) 1 then Some (Qnum q) else None
  | JStr s => if is_decimal s then Some (digits_value 0 s) else None
  | _ => None
  end.

Definition sql_eq (column param : jsval) : bool :=
  match as_integer column, as_integer param with
  | Some a, Some b => Z.eqb a b
  | _, _ => false
  end.

Definition stored (v : jsval) : jsval :=
  match v with
  | JUndefined => JNull
  | _ => v
  end.

Definition insert_id (_ : list order) (_ : order) : reported_id := AsNumber 0.

Definition insert_id_bigint (_ : list order) (_ : order) : reported_id := AsBigInt 0.

(** The order of the spec's scenario and requests around it. *)
Definition order_1001 : order :=
  mk_order (JNum 1001) (JNum (301 # 2)) (JStr "2024-01-01") (JStr "C001").

Definition body_1001 : gmap string jsval :=
  <["ord_no" := JNum 1001]>
    (<["purch_amt" := JNum (301 # 2)]>
       (<["ord_date" := JStr "2024-01-01"]>
          (<["customer_id" := JStr "C001"]> ∅))).

Definition with_body (b : gmap string jsval) : request := mk_request EmptyString b.

Definition with_id (id : string) : request := mk_request id ∅.

Definition with_id_and_body (id : string) (b : gmap string jsval) : request :=
  mk_request id b.

(** A second order, and a body that fails two checks. *)
Definition order_7 : order :=
  mk_order (JNum 7) (JNum 10) (JStr "2023-12-31") (JStr "C009").

Definition body_two_faults : gmap string jsval :=
  <["ord_no" := JArr [JNum 1; JStr "x"; JStr "y"]]> (delete "customer_id" body_1001).

(** A database side with the given rows of [orders], nothing left to
    fail and no connection checked out. *)
Definition db (os : list order) : world := mk_world [] os [] 0 0.

(** The same, where the outcomes of the coming driver calls are given. *)
Definition db_failing (os : list order) (outcomes : list (option string)) : world :=
  mk_world [] os outcomes 0 0.

End Sample.

(** ** The echo function *)

Module Echo.

(** The event of the Lambda proxy integration, as far as the handler
    reads it: [queryStringParameters] is [null] when the request carries
    no query string, and a map from names to strings otherwise. *)
Record event : Type := mk_event {
  queryStringParameters : option (gmap string string)
}.

Record response : Type := mk_response {
  statusCode : nat;
  body : string
}.

(** [a || b] on an optional string: [undefined] and the empty string are
    falsy. *)
Definition or_else (a : option string) (b : string) : string :=
  match a with
  | Some s => if String.eqb s EmptyString then b else s
  | None => b
  end.

Definition hex_digit (n : nat) : ascii :=
  ascii_of_nat (if n <? 10 then 48 + n else 87 + n).

(** One character inside a JSON string literal, as [JSON.stringify]
    writes it. *)
Definition json_char (a : ascii) : string :=
  let n := nat_of_ascii a in
  let bs := String (ascii_of_nat 92) EmptyString in
  if n =? 34 then bs +:+ String a EmptyString
  else if n =? 92 then bs +:+ bs
  else if n =? 8 then bs +:+ "b"
  else if n =? 9 then bs +:+ "t"
  else if n =? 10 then bs +:+ "n"
  else if n =? 12 then bs +:+ "f"
  else if n =? 13 then bs +:+ "r"
  else if n <? 32 then
    bs +:+ "u00" +:+ String (hex_digit (n / 16)) (String (hex_digit (n mod 16)) EmptyString)
  else String a EmptyString.

Fixpoint json_chars (s : string) : string :=
  match s with
  | EmptyString => EmptyString
  | String a rest => json_char a +:+ json_chars rest
  end.

Definition json_string (s : string) : string :=
  let q := String (ascii_of_nat 34) EmptyString in
  q +:+ json_chars s +:+ q.

(** [JSON.stringify({ message: text })] *)
Definition stringify_message (text : string) : string :=
  "{" +:+ json_string "message" +:+ ":" +:+ json_string text +:+ "}".

(** Reading the body back.  [hex_value] is the value of a hexadecimal
    digit; [read_chars] reads the inside of a JSON string literal up to
    its closing quote and returns the characters it stands for with the
    rest of the input (escapes above U+00FF are not needed here and are
    refused); [parse_message] reads [{ message: text }] as written by
    [JSON.stringify]. *)
Definition hex_value (a : ascii) : option nat :=
  let n := nat_of_ascii a in
  if (48 <=? n) && (n <=? 57) then Some (n - 48)
  else if (97 <=? n) && (n <=? 102) then Some (n - 87)
  else if (65 <=? n) && (n <=? 70) then Some (n - 55)
  else None.

Definition push (a : ascii) (r : option (string * string)) : option (string * string) :=
  match r with
  | Some (text, rest) => Some (String a text, rest)
  | None => None
  end.

Fixpoint read_chars (s : string) : option (string * string) :=
  match s with
  | EmptyString => None
  | String a rest =>
      let n := nat_of_ascii a in
      if n =? 34 then Some (EmptyString, rest)
      else if n =? 92 then
        match rest with
        | EmptyString => None
        | String b rest1 =>
            let m := nat_of_ascii b in
            if (m =? 34) || (m =? 92) || (m =? 47) then push b (read_chars rest1)
            else if m =? 98 then push (ascii_of_nat 8) (read_chars rest1)
            else if m =? 116 then push (ascii_of_nat 9) (read_chars rest1)
            else if m =? 110 then push (ascii_of_nat 10) (read_chars rest1)
            else if m =? 102 then push (ascii_of_nat 12) (read_chars rest1)
            else if m =? 114 then push (ascii_of_nat 13) (read_chars rest1)
            else if m =? 117 then
              match rest1 with
              | String h1 (String h2 (String h3 (String h4 rest2))) =>
                  match hex_value h1, hex_value h2, hex_value h3, hex_value h4 with
                  | Some 0, Some 0, Some v3, Some v4 =>
                      push (ascii_of_nat (16 * v3 + v4)) (read_chars rest2)
                  | _, _, _, _ => None
                  end
              | _ => None
              end
            else None
        end
      else if n <? 32 then None
      else push a (read_chars rest)
  end.

Definition parse_message (b : string) : option string :=
  match b with
  | String open (String quote1 rest) =>
      if (nat_of_ascii open =? 123) && (nat_of_ascii quote1 =? 34) then
        match read_chars rest with
        | Some (key, String colon (String quote2 rest1)) =>
            if String.eqb key "message" && (nat_of_ascii colon =? 58)
               && (nat_of_ascii quote2 =? 34) then
              match read_chars rest1 with
              | Some (text, tail) => if String.eqb tail "}" then Some text else None
              | None => None
              end
            else None
        | _ => None
        end
      else None
  | _ => None
  end.

(** [exports.handler]: the promise it returns is fulfilled with the
    response or rejected with the error thrown. *)
Definition handler (ev : event) : completion response :=
  match queryStringParameters ev with
  | None => Throw "TypeError: Cannot read properties of null (reading 'keyword')"
  | Some params =>
      let keyword := or_else (params !! "keyword") "no keyword provided" in
      let response :=
        mk_response 200 (stringify_message ("Tanvi says " +:+ keyword)) in
      Normal response
  end.

End Echo.

(** ** The application *)

(** The SQL texts, as they appear in [app.js]. *)
Definition sql_list_customers : string := "SELECT * FROM customer LIMIT 10".
Definition sql_list_orders : string := "SELECT * FROM orders".
Definition sql_get_order : string := "SELECT * FROM orders WHERE ord_no = ?".
Definition sql_insert_order : string :=
  "INSERT INTO orders (ord_no, purch_amt, ord_date, customer_id) VALUES (?, ?, ?, ?)".
Definition sql_patch_order : string := "UPDATE orders SET purch_amt = ? WHERE ord_no = ?".
Definition sql_put_order : string :=
  "UPDATE orders SET ord_no = ?, purch_amt = ?, ord_date = ?, customer_id = ? WHERE ord_no = ?".
Definition sql_delete_order : string := "DELETE FROM orders WHERE ord_no = ?".

(** The statements the server is asked to run. *)
Inductive statement : Type :=
| ListCustomers
| ListOrders
| GetOrder
| InsertOrder
| PatchOrder
| PutOrder
| DeleteOrder.

(** The server reads the text it is sent; any other text is a syntax
    error. *)
Definition parse (sql : string) : option statement :=
  if String.eqb sql sql_list_customers then Some ListCustomers
  else if String.eqb sql sql_list_orders then Some ListOrders
  else if String.eqb sql sql_get_order then Some GetOrder
  else if String.eqb sql sql_insert_order then Some InsertOrder
  else if String.eqb sql sql_patch_order then Some PatchOrder
  else if String.eqb sql sql_put_order then Some PutOrder
  else if String.eqb sql sql_delete_order then Some DeleteOrder
  else None.

(** [result.insertId]; on an array of rows the property is missing. *)
Definition insertId_of (r : qresult) : value :=
  match r with
  | OkPacket _ i => Data i
  | OkPacketBigInt _ z => BigInt z
  | Rows _ => Data JUndefined
  end.

(** The value handed to [res.json] when a query result is sent as is. *)
Definition result_value (r : qresult) : value :=
  match r with
  | Rows rows => Data (JArr rows)
  | OkPacket n i =>
      Data (JObj [("affectedRows", JNum (Z.of_nat n # 1)); ("insertId", i)])
  | OkPacketBigInt n z =>
      Object [("affectedRows", Data (JNum (Z.of_nat n # 1))); ("insertId", BigInt z)]
  end.

(** [rows.length > 0 ? rows[0] : nothing] *)
Definition first_row (r : qresult) : option jsval :=
  match r with
  | Rows (row :: _) => Some row
  | _ => None
  end.

Section App.

(** The express-validator standard validators, as the library applies
    them to one value (after its conversion to a string). *)
Variables check_isNumeric check_isFloat check_isISO8601 check_notEmpty : jsval -> bool.

(** The verdict of each of them on the value of a field. *)
Definition isNumeric : jsval -> bool := passes check_isNumeric.
Definition isFloat : jsval -> bool := passes check_isFloat.
Definition isISO8601 : jsval -> bool := passes check_isISO8601.
Definition notEmpty : jsval -> bool := passes check_notEmpty.

(** The server's comparison [ord_no = ?]: the stored value against the
    bound parameter. *)
Variable sql_eq : jsval -> jsval -> bool.

(** The value a column holds, as a later SELECT returns it, after a
    parameter was bound to it. *)
Variable stored : jsval -> jsval.

(** The insert id the server reports for an INSERT into [orders]: the
    table before the insert and the new row. *)
Variable insert_id : list order -> order -> reported_id.

(** *** Statement semantics on the tables *)

Definition matches (id : jsval) (o : order) : bool :=
  sql_eq (ord_no o) id.

Definition select_order (id : jsval) (os : list order) : list order :=
  List.filter (matches id) os.

Definition delete_order (id : jsval) (os : list order) : list order :=
  List.filter (fun o => negb (matches id o)) os.

Definition patch_order (amt id : jsval) (os : list order) : list order :=
  map (fun o => if matches id o
                then mk_order (ord_no o) (stored amt) (ord_date o) (customer_id o)
                else o) os.

Definition put_order (no amt date cust id : jsval) (os : list order) : list order :=
  map (fun o => if matches id o
                then mk_order (stored no) (stored amt) (stored date) (stored cust)
                else o) os.

Definition new_order (no amt date cust : jsval) : order :=
  mk_order (stored no) (stored amt) (stored date) (stored cust).

Definition count_matches (id : jsval) (os : list order) : nat :=
  length (select_order id os).

(** Running a statement with its parameters: the result and the new
    content of [orders], or the server's complaint. *)
Definition exec (sql : string) (params : list jsval) (w : world)
  : string + (qresult * list order) :=
  match parse sql, params with
  | Some ListCustomers, _ => inr (Rows (take 10 (customer w)), orders w)
  | Some ListOrders, _ => inr (Rows (map order_row (orders w)), orders w)
  | Some GetOrder, [id] =>
      inr (Rows (map order_row (select_order id (orders w))), orders w)
  | Some InsertOrder, [no; amt; date; cust] =>
      let o := new_order no amt date cust in
      inr (match insert_id (orders w) o with
           | AsNumber q => OkPacket 1 (JNum q)
           | AsBigInt z => OkPacketBigInt 1 z
           end,
           orders w ++ [o])
  (* The insert id of the packets below is not read by any handler. *)
  | Some PatchOrder, [amt; id] =>
      inr (OkPacket (count_matches id (orders w)) (JNum 0),
           patch_order amt id (orders w))
  | Some PutOrder, [no; amt; date; cust; id] =>
      inr (OkPacket (count_matches id (orders w)) (JNum 0),
           put_order no amt date cust id (orders w))
  | Some DeleteOrder, [id] =>
      inr (OkPacket (count_matches id (orders w)) (JNum 0),
           delete_order id (orders w))
  | Some _, _ => inl "Parameter count does not match the statement"
  | None, _ => inl "You have an error in your SQL syntax"
  end.

(** *** The driver *)

(** [pool.getConnection()]: rejects when the script says so or when all
    [connectionLimit] connections are checked out (the acquire timeout
    expires); otherwise hands out a fresh connection. *)
Definition acquire (w : world) : (string + nat) * world :=
  match script w with
  | Some e :: rest =>
      (inl e, mk_world (customer w) (orders w) rest (in_use w) (next_conn w))
  | _ =>
      if connectionLimit <=? in_use w
      then (inl "retrieve connection from pool timeout",
            mk_world (customer w) (orders w) (tail (script w)) (in_use w) (next_conn w))
      else (inr (next_conn w),
            mk_world (customer w) (orders w) (tail (script w))
                     (S (in_use w)) (S (next_conn w)))
  end.

(** [conn.query(sql, params)] *)
Definition submit (sql : string) (params : list jsval) (w : world)
  : (string + qresult) * world :=
  match script w with
  | Some e :: rest =>
      (inl e, mk_world (customer w) (orders w) rest (in_use w) (next_conn w))
  | _ =>
      match exec sql params w with
      | inl e =>
          (inl e, mk_world (customer w) (orders w) (tail (script w))
                           (in_use w) (next_conn w))
      | inr (r, os) =>
          (inr r, mk_world (customer w) os (tail (script w))
                           (in_use w) (next_conn w))
      end
  end.

(** [conn.end()] on a pool connection gives it back to the pool. *)
Definition release (w : world) : world :=
  mk_world (customer w) (orders w) (script w) (pred (in_use w)) (next_conn w).

(** [await pool.getConnection()] *)
Definition pool_getConnection : M nat :=
  fun f w =>
    match acquire w with
    | (inl e, w1) => (Throw e, f, w1, [EvAcquireFailed e])
    | (inr c, w1) => (Normal c, f, w1, [EvAcquired c])
    end.

(** [await conn.query(sql, params)] *)
Definition conn_query (c : nat) (sql : string) (params : list jsval) : M qresult :=
  fun f w =>
    match submit sql params w with
    | (inl e, w1) => (Throw e, f, w1, [EvQuery c sql params (inl e)])
    | (inr r, w1) => (Normal r, f, w1, [EvQuery c sql params (inr r)])
    end.

(** [conn.end()] *)
Definition conn_end (c : nat) : M unit :=
  fun f w => (Normal tt, f, release w, [EvEnd c]).

(** [if (conn) conn.end();] *)
Definition end_if_conn : M unit :=
  (c <- get_conn ;;
   match c with
   | Some c => conn_end c
   | None => ret tt
   end)%handler.

(** *** The route handlers *)

Local Open Scope handler_scope.

(** [app.get('/users', ...)] *)
Definition get_users (req : request) : M unit :=
  try_catch_finally
    (c <- pool_getConnection ;;
     set_conn c ;;
     rows <- conn_query c sql_list_customers [] ;;
     res_json (result_value rows))
    (fun err =>
       console_error "Error acquiring connection:" err ;;
       res_status_send 500 err)
    end_if_conn.

(** [app.get('/orders', ...)] *)
Definition get_orders (req : request) : M unit :=
  try_catch_finally
    (c <- pool_getConnection ;;
     set_conn c ;;
     rows <- conn_query c sql_list_orders [] ;;
     res_json (result_value rows))
    (fun err =>
       console_error "Error acquiring connection:" err ;;
       res_status_send 500 err)
    end_if_conn.

(** [app.get('/orders/:id', ...)] *)
Definition get_order (req : request) : M unit :=
  try_catch_finally
    (c <- pool_getConnection ;;
     set_conn c ;;
     rows <- conn_query c sql_get_order [JStr (params_id req)] ;;
     match first_row rows with
     | Some row => res_json (Data row)
     | None => res_status_json 404 (Data (message_obj "Order not found"))
     end)
    (fun err =>
       console_error "Error acquiring connection:" err ;;
       res_status_send 500 err)
    end_if_conn.

(** The chains of [app.post('/orders', [...], ...)]. *)
Definition post_orders_chains : list chain :=
  [ withMessage "Order number must be numeric" (validator check_isNumeric (body_ "ord_no"));
    withMessage "Purchase amount must be a valid number" (validator check_isFloat (body_ "purch_amt"));
    withMessage "Order date must be a valid date" (validator check_isISO8601 (body_ "ord_date"));
    withMessage "Customer ID is required" (validator check_notEmpty (body_ "customer_id")) ].

(** [app.post('/orders', ...)] *)
Definition post_orders (req : request) : M unit :=
  let errors := validationResult post_orders_chains req in
  if negb (isEmpty errors) then res_status_errors 400 errors
  else
    let ord_no := prop (body req) "ord_no" in
    let purch_amt := prop (body req) "purch_amt" in
    let ord_date := prop (body req) "ord_date" in
    let customer_id := prop (body req) "customer_id" in
    try_catch_finally
      (c <- pool_getConnection ;;
       set_conn c ;;
       result <- conn_query c sql_insert_order [ord_no; purch_amt; ord_date; customer_id] ;;
       res_status_json 201
         (Object [("message", Data (JStr "Order created"));
                  ("orderId", insertId_of result)]))
      (fun err =>
         console_error "Error inserting order:" err ;;
         res_status_send 500 err)
      end_if_conn.

(** The chain of [app.patch('/orders/:id', [...], ...)]. *)
Definition patch_order_chains : list chain :=
  [ withMessage "Purchase amount must be a valid number"
      (validator check_isFloat (optional (body_ "purch_amt"))) ].

(** [app.patch('/orders/:id', ...)] *)
Definition patch_order_by_id (req : request) : M unit :=
  let errors := validationResult patch_order_chains req in
  if negb (isEmpty errors) then res_status_errors 400 errors
  else
    let purch_amt := prop (body req) "purch_amt" in
    try_catch_finally
      (c <- pool_getConnection ;;
       set_conn c ;;
       _ <- conn_query c sql_patch_order [purch_amt; JStr (params_id req)] ;;
       res_json (Data (message_obj "Order updated")))
      (fun err =>
         console_error "Error updating order:" err ;;
         res_status_send 500 err)
      end_if_conn.

(** The chains of [app.put('/orders/:id', [...], ...)]. *)
Definition put_order_chains : list chain :=
  [ withMessage "Order number must be numeric" (validator check_isNumeric (body_ "ord_no"));
    withMessage "Purchase amount must be a valid number" (validator check_isFloat (body_ "purch_amt"));
    withMessage "Order date must be a valid date" (validator check_isISO8601 (body_ "ord_date"));
    withMessage "Customer ID is required" (validator check_notEmpty (body_ "customer_id")) ].

(** [app.put('/orders/:id', ...)] *)
Definition put_order_by_id (req : request) : M unit :=
  let errors := validationResult put_order_chains req in
  if negb (isEmpty errors) then res_status_errors 400 errors
  else
    let ord_no := prop (body req) "ord_no" in
    let purch_amt := prop (body req) "purch_amt" in
    let ord_date := prop (body req) "ord_date" in
    let customer_id := prop (body req) "customer_id" in
    try_catch_finally
      (c <- pool_getConnection ;;
       set_conn c ;;
       _ <- conn_query c sql_put_order
              [ord_no; purch_amt; ord_date; customer_id; JStr (params_id req)] ;;
       res_json (Data (message_obj "Order replaced")))
      (fun err =>
         console_error "Error replacing order:" err ;;
         res_status_send 500 err)
      end_if_conn.

(** [app.delete('/orders/:id', ...)] *)
Definition delete_order_by_id (req : request) : M unit :=
  try_catch_finally
    (c <- pool_getConnection ;;
     set_conn c ;;
     _ <- conn_query c sql_delete_order [JStr (params_id req)] ;;
     res_json (Data (message_obj "Order deleted")))
    (fun err =>
       console_error "Error deleting order:" err ;;
       res_status_send 500 err)
    end_if_conn.

(** The fallback [app.use((req, res) => ...)]. *)
Definition fallback (req : request) : M unit :=
  res_status_json 404 (Data (message_obj "Route not found")).

(** *** The routes *)

Inductive route : Type :=
| GET_users
| GET_orders
| GET_orders_id
| POST_orders
| PATCH_orders_id
| PUT_orders_id
| DELETE_orders_id
| Unmatched.

Definition app (r : route) : request -> M unit :=
  match r with
  | GET_users => get_users
  | GET_orders => get_orders
  | GET_orders_id => get_order
  | POST_orders => post_orders
  | PATCH_orders_id => patch_order_by_id
  | PUT_orders_id => put_order_by_id
  | DELETE_orders_id => delete_order_by_id
  | Unmatched => fallback
  end.

(** One request served: every handler starts with [conn] unset.  The
    result is the list of events and the database side afterwards. *)
Definition serve (r : route) (req : request) (w : world) : list event * world :=
  let '(_, _, w1, t) := app r req (mk_frame None) w in (t, w1).

(** How the handler of that request completes: normally, or with an
    error thrown out of it. *)
Definition completion_of (r : route) (req : request) (w : world) : completion unit :=
  let '(result, _, _, _) := app r req (mk_frame None) w in result.

(** The statement text of a route, if it has one. *)
Definition sql_of (r : route) : option string :=
  match r with
  | GET_users => Some sql_list_customers
  | GET_orders => Some sql_list_orders
  | GET_orders_id => Some sql_get_order
  | POST_orders => Some sql_insert_order
  | PATCH_orders_id => Some sql_patch_order
  | PUT_orders_id => Some sql_put_order
  | DELETE_orders_id => Some sql_delete_order
  | Unmatched => None
  end.

(** *** Reading a list of events *)

(** The responses sent, in order. *)
Definition responses (t : list event) : list (nat * payload) :=
  flat_map (fun e => match e with EvSend s b => [(s, b)] | _ => [] end) t.

(** The statements submitted, in order: text and bound parameters. *)
Definition queries (t : list event) : list (string * list jsval) :=
  flat_map (fun e => match e with EvQuery _ sql params _ => [(sql, params)] | _ => [] end) t.

(** The connections acquired and the connections released, in order. *)
Definition acquired (t : list event) : list nat :=
  flat_map (fun e => match e with EvAcquired c => [c] | _ => [] end) t.

Definition released (t : list event) : list nat :=
  flat_map (fun e => match e with EvEnd c => [c] | _ => [] end) t.

(** What was written with [console.error], in order: label and error. *)
Definition consoles (t : list event) : list (string * string) :=
  flat_map (fun e => match e with EvConsoleError label err => [(label, err)] | _ => [] end) t.

(** The status codes a route answers with. *)
Definition status_codes (r : route) : list nat :=
  match r with
  | GET_users | GET_orders | DELETE_orders_id => [200; 500]
  | GET_orders_id => [200; 404; 500]
  | POST_orders => [201; 400; 500]
  | PATCH_orders_id | PUT_orders_id => [200; 400; 500]
  | Unmatched => [404]
  end.

(** No driver call is left to fail. *)
Definition quiet (outcomes : list (option string)) : bool :=
  forallb (fun o : option string => match o with None => true | Some _ => false end)
          outcomes.

(** No driver call is left to fail and the pool has a connection free. *)
Definition calm (w : world) : bool :=
  quiet (script w) && (in_use w <? connectionLimit).

(** *** The paths through a handler *)

(** The [try]/[catch]/[finally] skeleton the seven database routes
    share, with the label of the console message, the statement, its
    parameters and what is done with the result. *)
Definition guarded (label sql : string) (params : list jsval)
    (reply : qresult -> M unit) : M unit :=
  try_catch_finally
    (c <- pool_getConnection ;;
     set_conn c ;;
     r <- conn_query c sql params ;;
     reply r)
    (fun err =>
       console_error label err ;;
       res_status_send 500 err)
    end_if_conn.

(** The events of a reply inside [try]: the response, or, when making
    it threw [e], what the [catch] block does with [e]. *)
Definition sending (label : string) (answer : string + nat * payload) : list event :=
  match answer with
  | inr (status, content) => [EvSend status content]
  | inl e => [EvConsoleError label e; EvSend 500 (Text e)]
  end.

(** The response that goes out in either case. *)
Definition sent (answer : string + nat * payload) : nat * payload :=
  match answer with
  | inr a => a
  | inl e => (500, Text e)
  end.

(** The events and the final state of the skeleton, path by path, when
    the reply to a result [r] sends the response [answer r] or throws
    the error [answer r]. *)
Definition paths (label sql : string) (params : list jsval)
    (answer : qresult -> string + nat * payload) (w : world) : list event * world :=
  match acquire w with
  | (inl e, w1) =>
      ([EvAcquireFailed e; EvConsoleError label e; EvSend 500 (Text e)], w1)
  | (inr c, w1) =>
      match submit sql params w1 with
      | (inl e, w2) =>
          ([EvAcquired c; EvQuery c sql params (inl e);
            EvConsoleError label e; EvSend 500 (Text e); EvEnd c], release w2)
      | (inr r, w2) =>
          (EvAcquired c :: EvQuery c sql params (inr r)
             :: sending label (answer r) ++ [EvEnd c],
           release w2)
      end
  end.

(** The five ways a request ends, read off its events: answered without
    any driver call; no connection obtained; statement rejected;
    statement run and answered; statement run and the answer not
    serializable. *)
Inductive exit_path : list event -> Prop :=
| exit_direct (status : nat) (content : payload) :
    exit_path [EvSend status content]
| exit_no_connection (label e : string) :
    exit_path [EvAcquireFailed e; EvConsoleError label e; EvSend 500 (Text e)]
| exit_rejected (c : nat) (sql : string) (params : list jsval) (label e : string) :
    exit_path [EvAcquired c; EvQuery c sql params (inl e);
               EvConsoleError label e; EvSend 500 (Text e); EvEnd c]
| exit_done (c : nat) (sql : string) (params : list jsval) (r : qresult)
    (status : nat) (content : payload) :
    exit_path [EvAcquired c; EvQuery c sql params (inr r);
               EvSend status content; EvEnd c]
| exit_unsent (c : nat) (sql : string) (params : list jsval) (r : qresult)
    (label e : string) :
    exit_path [EvAcquired c; EvQuery c sql params (inr r);
               EvConsoleError label e; EvSend 500 (Text e); EvEnd c].

(** [res.status(s).json(v)] as an answer: the response, or the error
    thrown. *)
Definition json_answer (status : nat) (v : value) : string + nat * payload :=
  match stringify v with
  | Some data => inr (status, Json data)
  | None => inl bigint_error
  end.

(** The answer of each route to a statement that ran. *)
Definition answer_of (r : route) (result : qresult) : string + nat * payload :=
  match r with
  | GET_users | GET_orders => json_answer 200 (result_value result)
  | GET_orders_id =>
      inr (match first_row result with
           | Some row => (200, Json row)
           | None => (404, Json (message_obj "Order not found"))
           end)
  | POST_orders =>
      json_answer 201 (Object [("message", Data (JStr "Order created"));
                               ("orderId", insertId_of result)])
  | PATCH_orders_id => inr (200, Json (message_obj "Order updated"))
  | PUT_orders_id => inr (200, Json (message_obj "Order replaced"))
  | DELETE_orders_id => inr (200, Json (message_obj "Order deleted"))
  | Unmatched => inr (404, Json (message_obj "Route not found"))
  end.

(** The chains, the console label and the bound parameters of each
    route. *)
Definition chains_of (r : route) : list chain :=
  match r with
  | POST_orders => post_orders_chains
  | PATCH_orders_id => patch_order_chains
  | PUT_orders_id => put_order_chains
  | _ => []
  end.

Definition label_of (r : route) : string :=
  match r with
  | GET_users | GET_orders | GET_orders_id => "Error acquiring connection:"
  | POST_orders => "Error inserting order:"
  | PATCH_orders_id => "Error updating order:"
  | PUT_orders_id => "Error replacing order:"
  | DELETE_orders_id => "Error deleting order:"
  | Unmatched => EmptyString
  end.

Definition params_of (r : route) (req : request) : list jsval :=
  match r with
  | GET_users | GET_orders | Unmatched => []
  | GET_orders_id | DELETE_orders_id => [JStr (params_id req)]
  | POST_orders =>
      [prop (body req) "ord_no"; prop (body req) "purch_amt";
       prop (body req) "ord_date"; prop (body req) "customer_id"]
  | PATCH_orders_id => [prop (body req) "purch_amt"; JStr (params_id req)]
  | PUT_orders_id =>
      [prop (body req) "ord_no"; prop (body req) "purch_amt";
       prop (body req) "ord_date"; prop (body req) "customer_id";
       JStr (params_id req)]
  end.

(** ** Properties *)

(** *** The skeleton *)

(** A reply that is one [res.status(s).json(v)], as an answer. *)
Definition replies (reply : M unit) (answer : string + nat * payload) : Prop :=
  reply = match answer with
          | inr (status, content) => emit (EvSend status content)
          | inl e => throw e
          end.

Lemma res_status_json_replies (status : nat) (v : value) :
  replies (res_status_json status v) (json_answer status v).
Proof.
  unfold replies, res_status_json, json_answer. now destruct (stringify v).
Qed.

Lemma guarded_paths (label sql : string) (params : list jsval)
    (reply : qresult -> M unit) (answer : qresult -> string + nat * payload)
    (w : world) :
  (forall r, replies (reply r) (answer r)) ->
  exists f : frame,
    guarded label sql params reply (mk_frame None) w
    = (Normal tt, f,
       snd (paths label sql params answer w),
       fst (paths label sql params answer w)).
Proof.
  intros Hreply.
  unfold guarded, paths, try_catch_finally, bind, pool_getConnection, conn_query.
  destruct (acquire w) as [[e | c] w1]; [eexists; reflexivity |].
  unfold set_conn.
  destruct (submit sql params w1) as [[e | r] w2]; [eexists; reflexivity |].
  rewrite (Hreply r).
  destruct (answer r) as [e | [status content]]; eexists; reflexivity.
Qed.

(** The whole run of a request: it completes normally, with the events
    and the final state given path by path. *)
Lemma app_paths (r : route) (req : request) (w : world) :
  exists f : frame,
    app r req (mk_frame None) w =
    (Normal tt, f,
     snd (match sql_of r with
          | None => ([EvSend 404 (Json (message_obj "Route not found"))], w)
          | Some sql =>
              if isEmpty (validationResult (chains_of r) req)
              then paths (label_of r) sql (params_of r req) (answer_of r) w
              else ([EvSend 400 (Errors (validationResult (chains_of r) req))], w)
          end),
     fst (match sql_of r with
          | None => ([EvSend 404 (Json (message_obj "Route not found"))], w)
          | Some sql =>
              if isEmpty (validationResult (chains_of r) req)
              then paths (label_of r) sql (params_of r req) (answer_of r) w
              else ([EvSend 400 (Errors (validationResult (chains_of r) req))], w)
          end)).
Proof.
  destruct r; cbn [sql_of app chains_of label_of params_of];
    try (cbn [validationResult flat_map isEmpty];
         refine (guarded_paths _ _ _ _ _ w _); intros res;
         first [ apply res_status_json_replies
               | destruct res as [[| row rows] | n i | n z]; reflexivity
               | reflexivity ]).
  - unfold post_orders.
    destruct (validationResult post_orders_chains req) eqn:E; cbn [isEmpty negb].
    + refine (guarded_paths _ _ _ _ _ w _); intros; apply res_status_json_replies.
    + eexists; reflexivity.
  - unfold patch_order_by_id.
    destruct (validationResult patch_order_chains req) eqn:E; cbn [isEmpty negb].
    + refine (guarded_paths _ _ _ _ _ w _); intros; reflexivity.
    + eexists; reflexivity.
  - unfold put_order_by_id.
    destruct (validationResult put_order_chains req) eqn:E; cbn [isEmpty negb].
    + refine (guarded_paths _ _ _ _ _ w _); intros; reflexivity.
    + eexists; reflexivity.
  - eexists; reflexivity.
Qed.


(** Every route is its validation gate followed by the skeleton. *)
Lemma serve_paths (r : route) (req : request) (w : world) :
  serve r req w =
  match sql_of r with
  | None => ([EvSend 404 (Json (message_obj "Route not found"))], w)
  | Some sql =>
      if isEmpty (validationResult (chains_of r) req)
      then paths (label_of r) sql (params_of r req) (answer_of r) w
      else ([EvSend 400 (Errors (validationResult (chains_of r) req))], w)
  end.
Proof.
  unfold serve. destruct (app_paths r req w) as [f ->].
  now destruct (match sql_of r with None => _ | Some _ => _ end).
Qed.

Lemma completion_normal (r : route) (req : request) (w : world) :
  completion_of r req w = Normal tt.
Proof.
  unfold completion_of. now destruct (app_paths r req w) as [f ->].
Qed.

(** *** The driver on a calm database side *)

Lemma quiet_script (outcomes : list (option string)) :
  quiet outcomes = true ->
  outcomes = [] \/ exists rest, outcomes = None :: rest.
Proof.
  destruct outcomes as [| [e |] rest]; intros H;
    [now left | discriminate | right; eauto].
Qed.

Lemma quiet_tail (outcomes : list (option string)) :
  quiet outcomes = true -> quiet (tail outcomes) = true.
Proof.
  destruct outcomes as [| o rest]; [trivial |].
  unfold quiet. cbn [forallb tail]. intros H.
  now apply andb_prop in H as [_ H].
Qed.

Lemma calm_quiet (w : world) : calm w = true -> quiet (script w) = true.
Proof. unfold calm. intros H. now apply andb_prop in H as [H _]. Qed.

Lemma calm_free (w : world) : calm w = true -> in_use w < connectionLimit.
Proof.
  unfold calm. intros H. apply andb_prop in H as [_ H]. now apply Nat.ltb_lt.
Qed.

Lemma exec_tables (sql : string) (params : list jsval) (w w1 : world) :
  customer w1 = customer w -> orders w1 = orders w ->
  exec sql params w1 = exec sql params w.
Proof. intros Hc Ho. unfold exec. rewrite Hc, Ho. reflexivity. Qed.

Lemma acquire_calm (w : world) :
  calm w = true ->
  acquire w =
  (inr (next_conn w),
   mk_world (customer w) (orders w) (tail (script w)) (S (in_use w)) (S (next_conn w))).
Proof.
  intros H. unfold acquire.
  assert (Hlim : (connectionLimit <=? in_use w) = false).
  { apply Nat.leb_gt. now apply calm_free. }
  rewrite Hlim.
  destruct (quiet_script _ (calm_quiet w H)) as [-> | [rest ->]]; reflexivity.
Qed.

Lemma submit_quiet (sql : string) (params : list jsval) (w : world) :
  quiet (script w) = true ->
  submit sql params w =
  match exec sql params w with
  | inl e =>
      (inl e, mk_world (customer w) (orders w) (tail (script w)) (in_use w) (next_conn w))
  | inr (r, os) =>
      (inr r, mk_world (customer w) os (tail (script w)) (in_use w) (next_conn w))
  end.
Proof.
  intros H. unfold submit.
  destruct (quiet_script _ H) as [-> | [rest ->]]; reflexivity.
Qed.

(** On a calm database side the skeleton takes the last path whenever
    the server accepts the statement. *)
Lemma paths_calm (label sql : string) (params : list jsval)
    (answer : qresult -> string + nat * payload) (w : world)
    (r : qresult) (os : list order) :
  calm w = true ->
  exec sql params w = inr (r, os) ->
  paths label sql params answer w =
  (EvAcquired (next_conn w) :: EvQuery (next_conn w) sql params (inr r)
     :: sending label (answer r) ++ [EvEnd (next_conn w)],
   mk_world (customer w) os (tail (tail (script w))) (in_use w) (S (next_conn w))).
Proof.
  intros Hcalm Hexec. unfold paths.
  rewrite (acquire_calm w Hcalm).
  rewrite submit_quiet by (cbn [script]; apply quiet_tail, calm_quiet, Hcalm).
  rewrite (exec_tables sql params w
             (mk_world (customer w) (orders w) (tail (script w))
                       (S (in_use w)) (S (next_conn w))) eq_refl eq_refl).
  rewrite Hexec. reflexivity.
Qed.

(** The database side stays calm across a request that ran its
    statement. *)
Lemma calm_after (w : world) (os : list order) (k : nat) :
  calm w = true ->
  calm (mk_world (customer w) os (tail (tail (script w))) (in_use w) k) = true.
Proof.
  intros H. unfold calm. cbn [script in_use]. apply andb_true_intro. split.
  - apply quiet_tail, quiet_tail, calm_quiet, H.
  - apply Nat.ltb_lt, calm_free, H.
Qed.

(** *** What the server does with each statement *)

Lemma exec_list_customers (w : world) :
  exec sql_list_customers [] w = inr (Rows (take 10 (customer w)), orders w).
Proof. reflexivity. Qed.

Lemma exec_list_orders (w : world) :
  exec sql_list_orders [] w = inr (Rows (map order_row (orders w)), orders w).
Proof. reflexivity. Qed.

Lemma exec_get_order (id : jsval) (w : world) :
  exec sql_get_order [id] w =
  inr (Rows (map order_row (select_order id (orders w))), orders w).
Proof. reflexivity. Qed.

Lemma exec_insert_order (no amt date cust : jsval) (w : world) :
  exec sql_insert_order [no; amt; date; cust] w =
  inr (match insert_id (orders w) (new_order no amt date cust) with
       | AsNumber q => OkPacket 1 (JNum q)
       | AsBigInt z => OkPacketBigInt 1 z
       end,
       orders w ++ [new_order no amt date cust]).
Proof. reflexivity. Qed.

Lemma exec_patch_order (amt id : jsval) (w : world) :
  exec sql_patch_order [amt; id] w =
  inr (OkPacket (count_matches id (orders w)) (JNum 0), patch_order amt id (orders w)).
Proof. reflexivity. Qed.

Lemma exec_put_order (no amt date cust id : jsval) (w : world) :
  exec sql_put_order [no; amt; date; cust; id] w =
  inr (OkPacket (count_matches id (orders w)) (JNum 0),
       put_order no amt date cust id (orders w)).
Proof. reflexivity. Qed.

Lemma exec_delete_order (id : jsval) (w : world) :
  exec sql_delete_order [id] w =
  inr (OkPacket (count_matches id (orders w)) (JNum 0), delete_order id (orders w)).
Proof. reflexivity. Qed.

(** Rows that do not match are left as they are. *)
Lemma select_none_forall (id : jsval) (os : list order) :
  select_order id os = [] -> forall o, In o os -> matches id o = false.
Proof.
  unfold select_order. induction os as [| a os IH]; intros H o Hin.
  - destruct Hin.
  - cbn [List.filter] in H. destruct (matches id a) eqn:Ea; [discriminate |].
    destruct Hin as [<- | Hin]; [exact Ea | now apply IH].
Qed.

Lemma patch_order_none (amt id : jsval) (os : list order) :
  select_order id os = [] -> patch_order amt id os = os.
Proof.
  intros H. unfold patch_order.
  rewrite <- (map_id os) at 2. apply map_ext_in. intros o Hin.
  now rewrite (select_none_forall id os H o Hin).
Qed.

Lemma put_order_none (no amt date cust id : jsval) (os : list order) :
  select_order id os = [] -> put_order no amt date cust id os = os.
Proof.
  intros H. unfold put_order.
  rewrite <- (map_id os) at 2. apply map_ext_in. intros o Hin.
  now rewrite (select_none_forall id os H o Hin).
Qed.

Lemma delete_order_twice (id : jsval) (os : list order) :
  delete_order id (delete_order id os) = delete_order id os.
Proof.
  unfold delete_order. induction os as [| o os IH]; [reflexivity |].
  cbn [List.filter]. destruct (negb (matches id o)) eqn:E.
  - cbn [List.filter]. rewrite E, IH. reflexivity.
  - exact IH.
Qed.

(** *** Validation *)

Lemma field_errors_filter (path msg : string) (check : jsval -> bool) (v : jsval) :
  field_errors path msg check v =
  map (mk_verror path msg) (List.filter (fun x => negb (check x)) (values v)).
Proof.
  unfold field_errors. induction (values v) as [| x xs IH]; [reflexivity |].
  cbn [flat_map List.filter]. destruct (check x); cbn [negb app map]; now rewrite IH.
Qed.

Lemma field_errors_passes (path msg : string) (check : jsval -> bool) (v : jsval) :
  passes check v = true -> field_errors path msg check v = [].
Proof.
  unfold passes, field_errors. induction (values v) as [| x xs IH]; [reflexivity |].
  cbn [forallb flat_map]. intros H. apply andb_prop in H as [Hx Hxs].
  rewrite Hx. now apply IH.
Qed.

Lemma field_errors_fails (path msg : string) (check : jsval -> bool) (v : jsval) :
  passes check v = false -> In path (map ve_path (field_errors path msg check v)).
Proof.
  unfold passes, field_errors. induction (values v) as [| x xs IH]; [discriminate |].
  cbn [forallb flat_map]. destruct (check x); cbn [andb app map].
  - exact IH.
  - intros _. now left.
Qed.

Lemma field_errors_path (path msg : string) (check : jsval -> bool) (v : jsval) :
  Forall (fun e : verror => ve_path e = path /\ ve_msg e = msg /\ In (ve_value e) (values v))
         (field_errors path msg check v).
Proof.
  unfold field_errors. induction (values v) as [| x xs IH]; [apply List.Forall_nil |].
  cbn [flat_map]. apply Forall_app. split.
  - destruct (check x); [apply List.Forall_nil |].
    apply List.Forall_cons; [| apply List.Forall_nil].
    cbn. repeat split. now left.
  - eapply List.Forall_impl; [| exact IH].
    intros e (Hp & Hm & Hv). repeat split; try assumption. now right.
Qed.

Lemma post_orders_validation (req : request) :
  validationResult post_orders_chains req =
  field_errors "ord_no" "Order number must be numeric" check_isNumeric
    (prop (body req) "ord_no")
  ++ field_errors "purch_amt" "Purchase amount must be a valid number" check_isFloat
       (prop (body req) "purch_amt")
  ++ field_errors "ord_date" "Order date must be a valid date" check_isISO8601
       (prop (body req) "ord_date")
  ++ field_errors "customer_id" "Customer ID is required" check_notEmpty
       (prop (body req) "customer_id").
Proof.
  unfold validationResult, post_orders_chains, run_chain.
  cbn. now rewrite !app_nil_r.
Qed.

Lemma put_order_validation (req : request) :
  validationResult put_order_chains req = validationResult post_orders_chains req.
Proof. reflexivity. Qed.

Lemma patch_order_validation (req : request) :
  validationResult patch_order_chains req =
  if is_undefined (prop (body req) "purch_amt") then []
  else field_errors "purch_amt" "Purchase amount must be a valid number" check_isFloat
         (prop (body req) "purch_amt").
Proof.
  unfold validationResult, patch_order_chains, run_chain.
  cbn.
  destruct (is_undefined (prop (body req) "purch_amt")); [reflexivity |].
  now rewrite !app_nil_r.
Qed.

Lemma valid_order_payload (req : request) :
  isNumeric (prop (body req) "ord_no") = true ->
  isFloat (prop (body req) "purch_amt") = true ->
  isISO8601 (prop (body req) "ord_date") = true ->
  notEmpty (prop (body req) "customer_id") = true ->
  validationResult post_orders_chains req = [].
Proof.
  intros H1 H2 H3 H4. rewrite post_orders_validation.
  rewrite !field_errors_passes by assumption. reflexivity.
Qed.

Lemma valid_patch_body (req : request) :
  is_undefined (prop (body req) "purch_amt") = true
  \/ isFloat (prop (body req) "purch_amt") = true ->
  validationResult patch_order_chains req = [].
Proof.
  intros Hbody. rewrite patch_order_validation.
  destruct Hbody as [-> | H]; [reflexivity |].
  rewrite field_errors_passes by exact H. now destruct (is_undefined _).
Qed.

(** *** A request on a calm database side *)

Lemma serve_calm (r : route) (req : request) (w : world)
    (sql : string) (res : qresult) (os : list order) :
  calm w = true ->
  sql_of r = Some sql ->
  validationResult (chains_of r) req = [] ->
  exec sql (params_of r req) w = inr (res, os) ->
  serve r req w =
  (EvAcquired (next_conn w)
     :: EvQuery (next_conn w) sql (params_of r req) (inr res)
     :: sending (label_of r) (answer_of r res) ++ [EvEnd (next_conn w)],
   mk_world (customer w) os (tail (tail (script w))) (in_use w) (S (next_conn w))).
Proof.
  intros Hcalm Hsql Hvalid Hexec.
  rewrite serve_paths, Hsql, Hvalid. cbn [isEmpty].
  now apply paths_calm.
Qed.

(** How [acquire] and [submit] move the pool counter. *)
Lemma acquire_in_use (w : world) :
  match acquire w with
  | (inl _, w1) => in_use w1 = in_use w
  | (inr _, w1) => in_use w1 = S (in_use w)
  end.
Proof.
  unfold acquire.
  destruct (script w) as [| [e |] rest];
    try reflexivity; destruct (connectionLimit <=? in_use w); reflexivity.
Qed.

Lemma submit_in_use (sql : string) (params : list jsval) (w : world) :
  in_use (snd (submit sql params w)) = in_use w.
Proof.
  unfold submit.
  destruct (script w) as [| [e |] rest]; try reflexivity;
    destruct (exec sql params _) as [e | [r os]]; reflexivity.
Qed.

(** GET /users never answers with more than ten rows. *)
Lemma get_users_sends_at_most_ten_rows (req : request) (w : world) :
  Forall (fun a : nat * payload =>
            match a with
            | (200, Json (JArr rows)) => length rows <= 10
            | (status, _) => status = 500
            end)
         (responses (fst (serve GET_users req w))).
Proof.
  rewrite serve_paths. cbn [sql_of chains_of validationResult flat_map isEmpty].
  unfold paths. destruct (acquire w) as [[e | c] w1].
  - cbn. apply List.Forall_cons; [reflexivity | apply List.Forall_nil].
  - destruct (submit _ _ w1) as [[e | res] w2] eqn:Hsubmit.
    + cbn. apply List.Forall_cons; [reflexivity | apply List.Forall_nil].
    + unfold submit in Hsubmit.
      assert (Hres : res = Rows (take 10 (customer w1))).
      { destruct (script w1) as [| [e |] rest]; try discriminate Hsubmit;
          rewrite exec_list_customers in Hsubmit; now inversion Hsubmit. }
      subst res. cbn.
      apply List.Forall_cons; [| apply List.Forall_nil].
      rewrite length_take. lia.
Qed.

(** *** The claims *)

(** C2. For every route, every request and every state of the database
    side, each statement submitted carries the one SQL text of the route
    ([sql_of] does not look at the request), and each bound parameter is
    the path parameter or a property of the body.  Hence any two
    requests on the same route submit the same text. *)
Theorem sql_text_is_fixed_per_route :
  (forall (r : route) (req : request) (w : world),
      Forall (fun q : string * list jsval =>
                sql_of r = Some (fst q)
                /\ Forall (fun p : jsval =>
                             p = JStr (params_id req)
                             \/ exists k : string, p = prop (body req) k)
                          (snd q))
             (queries (fst (serve r req w))))
  /\ (forall (r : route) (req1 req2 : request) (w1 w2 : world),
         Forall (fun q1 : string * list jsval =>
                   Forall (fun q2 : string * list jsval => fst q1 = fst q2)
                          (queries (fst (serve r req2 w2))))
                (queries (fst (serve r req1 w1)))).
Proof.
  assert (Hone : forall (r : route) (req : request) (w : world),
             queries (fst (serve r req w)) = []
             \/ exists sql, sql_of r = Some sql
                            /\ queries (fst (serve r req w)) = [(sql, params_of r req)]).
  { intros r req w. rewrite serve_paths.
    destruct (sql_of r) as [sql |] eqn:Hsql; [| now left].
    destruct (isEmpty _); [| now left].
    unfold paths. destruct (acquire w) as [[e | c] w1]; [now left |].
    destruct (submit sql _ w1) as [[e | res] w2];
      [| destruct (answer_of r res) as [e | [status content]]];
      right; exists sql; split; reflexivity. }
  split.
  - intros r req w.
    destruct (Hone r req w) as [-> | [sql [Hsql ->]]]; [constructor |].
    constructor; [| constructor]. split; [exact Hsql |].
    destruct r; cbn [snd params_of];
      repeat (apply List.Forall_cons;
              [solve [now left | right; eexists; reflexivity] |]);
      apply List.Forall_nil.
  - intros r req1 req2 w1 w2.
    destruct (Hone r req1 w1) as [-> | [sql1 [Hsql1 ->]]]; [constructor |].
    constructor; [| constructor].
    destruct (Hone r req2 w2) as [-> | [sql2 [Hsql2 ->]]]; [constructor |].
    constructor; [| constructor].
    cbn [fst]. congruence.
Qed.

(** On every exit path a failure is answered with 500 and the error
    text, and a release comes right after the response. *)
Ltac split_membership :=
  repeat match goal with
         | H : _ \/ _ |- _ => destruct H as [H | H]
         | H : exists _, _ |- _ => destruct H as [? H]
         | H : False |- _ => destruct H
         | H : In _ (_ :: _) |- _ => cbn [In] in H
         | H : In _ [] |- _ => cbn [In] in H
         | H : @eq event _ _ |- _ => first [discriminate H | inversion H; clear H; subst]
         end.

Lemma exit_path_failure (t : list event) (e : string) :
  exit_path t ->
  In (EvAcquireFailed e) t
  \/ (exists (c : nat) (sql : string) (params : list jsval),
         In (EvQuery c sql params (inl e)) t) ->
  responses t = [(500, Text e)].
Proof.
  intros Hpath Hfail.
  destruct Hpath; split_membership; reflexivity.
Qed.

Lemma exit_path_release (t : list event) (c : nat) :
  exit_path t ->
  In (EvEnd c) t ->
  exists (before : list event) (status : nat) (content : payload),
    t = before ++ [EvSend status content; EvEnd c].
Proof.
  intros Hpath Hin.
  destruct Hpath; split_membership.
  - exists [EvAcquired c; EvQuery c sql params (inl e); EvConsoleError label e],
      500, (Text e). reflexivity.
  - exists [EvAcquired c; EvQuery c sql params (inr r)], status, content.
    reflexivity.
  - exists [EvAcquired c; EvQuery c sql params (inr r); EvConsoleError label e],
      500, (Text e). reflexivity.
Qed.

Lemma exit_path_caught (t : list event) (label e : string) :
  exit_path t ->
  In (EvConsoleError label e) t ->
  responses t = [(500, Text e)].
Proof.
  intros Hpath Hin.
  destruct Hpath; split_membership; reflexivity.
Qed.

(** C3, as the code has it.  The handler of every request completes
    normally: nothing is thrown out of it.  Every request ends on one of
    the five exit paths.  A failure of the acquisition, of the statement
    or of the serialization of the answer is caught in the handler,
    written to the console and answered with status 500 and the error
    text; the connection, if one was acquired, is given back right after
    the response was sent, not before.  The connections released are
    exactly the connections acquired, at most one per request, so the
    pool counter is what it was before the request. *)
Theorem failure_is_answered_then_connection_released
    (r : route) (req : request) (w : world) :
  completion_of r req w = Normal tt
  /\ exit_path (fst (serve r req w))
  /\ (forall e : string,
         In (EvAcquireFailed e) (fst (serve r req w))
         \/ (exists (c : nat) (sql : string) (params : list jsval),
                In (EvQuery c sql params (inl e)) (fst (serve r req w)))
         \/ (exists label : string, In (EvConsoleError label e) (fst (serve r req w))) ->
         responses (fst (serve r req w)) = [(500, Text e)])
  /\ (forall c : nat,
         In (EvEnd c) (fst (serve r req w)) ->
         exists (before : list event) (status : nat) (content : payload),
           fst (serve r req w) = before ++ [EvSend status content; EvEnd c])
  /\ released (fst (serve r req w)) = acquired (fst (serve r req w))
  /\ length (acquired (fst (serve r req w))) <= 1
  /\ in_use (snd (serve r req w)) = in_use w.
Proof.
  split; [apply completion_normal |].
  assert (Hmain : exit_path (fst (serve r req w))
                  /\ released (fst (serve r req w)) = acquired (fst (serve r req w))
                  /\ length (acquired (fst (serve r req w))) <= 1
                  /\ in_use (snd (serve r req w)) = in_use w).
  { rewrite serve_paths.
    destruct (sql_of r) as [sql |].
    2: { cbn. repeat split; [constructor | lia]. }
    destruct (isEmpty _).
    2: { cbn. repeat split; [constructor | lia]. }
    unfold paths.
    pose proof (acquire_in_use w) as Ha.
    destruct (acquire w) as [[e | c] w1].
    { cbn. repeat split; [constructor | lia | exact Ha]. }
    pose proof (submit_in_use sql (params_of r req) w1) as Hs.
    destruct (submit sql (params_of r req) w1) as [[e | res] w2];
      [| destruct (answer_of r res) as [e | [status content]]];
      cbn [snd] in Hs; cbn; (repeat split; [constructor | lia | lia]). }
  destruct Hmain as (Hpath & Hrel & Hone & Hpool).
  split; [exact Hpath |].
  split.
  { intros e [H | [H | [label H]]].
    - apply exit_path_failure; [exact Hpath | now left].
    - apply exit_path_failure; [exact Hpath | now right].
    - now apply (exit_path_caught _ label). }
  split; [intros c; now apply exit_path_release |].
  repeat split; assumption.
Qed.


(** C5. When the driver calls go through, GET /orders/:id answers 404
    with [{ message: 'Order not found' }] if no row of [orders] matches
    the id, and 200 with the first matching row otherwise. *)
Theorem get_order_answers_404_or_first_row (req : request) (w : world) :
  calm w = true ->
  (select_order (JStr (params_id req)) (orders w) = [] ->
   responses (fst (serve GET_orders_id req w)) =
     [(404, Json (JObj [("message", JStr "Order not found")]))])
  /\ (forall (o : order) (rest : list order),
         select_order (JStr (params_id req)) (orders w) = o :: rest ->
         responses (fst (serve GET_orders_id req w)) = [(200, Json (order_row o))]).
Proof.
  intros Hcalm.
  pose proof (serve_calm GET_orders_id req w _ _ _ Hcalm eq_refl eq_refl
                (exec_get_order (JStr (params_id req)) w)) as Hserve.
  rewrite Hserve. split.
  - intros ->. reflexivity.
  - intros o rest ->. reflexivity.
Qed.

(** C6. PATCH /orders/:id with a well-formed body ([purch_amt] absent or
    a valid number) answers 200 with [{ message: 'Order updated' }] when
    the driver calls go through, whether or not a row matches; when none
    matches, the table is left as it was.  Whatever the request and the
    state of the database side, the status sent is 200, 400 or 500: this
    handler has no not-found answer. *)
Theorem patch_answers_200_without_existence_check :
  (forall (req : request) (w : world),
      calm w = true ->
      is_undefined (prop (body req) "purch_amt") = true
      \/ isFloat (prop (body req) "purch_amt") = true ->
      responses (fst (serve PATCH_orders_id req w)) =
        [(200, Json (JObj [("message", JStr "Order updated")]))]
      /\ (select_order (JStr (params_id req)) (orders w) = [] ->
          orders (snd (serve PATCH_orders_id req w)) = orders w))
  /\ (forall (req : request) (w : world),
         Forall (fun a : nat * payload => fst a = 200 \/ fst a = 400 \/ fst a = 500)
                (responses (fst (serve PATCH_orders_id req w)))).
Proof.
  split.
  - intros req w Hcalm Hbody.
    assert (Hvalid : validationResult (chains_of PATCH_orders_id) req = []).
    { cbn [chains_of]. now apply valid_patch_body. }
    pose proof (serve_calm PATCH_orders_id req w _ _ _ Hcalm eq_refl Hvalid
                  (exec_patch_order _ _ w)) as Hserve.
    rewrite Hserve. split; [reflexivity |].
    intros Hnone. cbn [snd orders]. now apply patch_order_none.
  - intros req w. rewrite serve_paths. cbn [sql_of].
    destruct (isEmpty _).
    + unfold paths. destruct (acquire w) as [[e | c] w1].
      * cbn. apply List.Forall_cons; [cbn [fst]; auto | apply List.Forall_nil].
      * destruct (submit _ _ w1) as [[e | res] w2]; cbn;
          (apply List.Forall_cons; [cbn [fst]; auto | apply List.Forall_nil]).
    + cbn. apply List.Forall_cons; [cbn [fst]; auto | apply List.Forall_nil].
Qed.

(** C7. DELETE /orders/:id called twice in succession, with the driver
    calls going through, answers 200 both times, and the tables after
    the second call are the tables after the first. *)
Theorem delete_twice_is_delete_once (req : request) (w : world) :
  calm w = true ->
  responses (fst (serve DELETE_orders_id req w)) =
    [(200, Json (JObj [("message", JStr "Order deleted")]))]
  /\ responses (fst (serve DELETE_orders_id req (snd (serve DELETE_orders_id req w)))) =
       [(200, Json (JObj [("message", JStr "Order deleted")]))]
  /\ orders (snd (serve DELETE_orders_id req (snd (serve DELETE_orders_id req w)))) =
       orders (snd (serve DELETE_orders_id req w))
  /\ customer (snd (serve DELETE_orders_id req (snd (serve DELETE_orders_id req w)))) =
       customer (snd (serve DELETE_orders_id req w)).
Proof.
  intros Hcalm.
  pose proof (serve_calm DELETE_orders_id req w _ _ _ Hcalm eq_refl eq_refl
                (exec_delete_order _ w)) as H1.
  rewrite H1. cbn [fst snd].
  pose proof (calm_after w (delete_order (JStr (params_id req)) (orders w))
                (S (next_conn w)) Hcalm) as Hcalm1.
  pose proof (serve_calm DELETE_orders_id req _ _ _ _ Hcalm1 eq_refl eq_refl
                (exec_delete_order _ _)) as H2.
  rewrite H2. cbn [fst snd orders customer params_of].
  repeat split; try reflexivity.
  apply delete_order_twice.
Qed.

(** C8. A valid PUT /orders/:id, with the driver calls going through,
    answers 200 with [{ message: 'Order replaced' }] and rewrites all
    four columns of exactly the rows whose [ord_no] matches the path id;
    the new [ord_no] is the one of the body, which is never compared
    with the path id.  When no row matches, the table is unchanged and
    the answer is the same. *)
Theorem put_rewrites_the_rows_keyed_by_the_path_id (req : request) (w : world) :
  calm w = true ->
  isNumeric (prop (body req) "ord_no") = true ->
  isFloat (prop (body req) "purch_amt") = true ->
  isISO8601 (prop (body req) "ord_date") = true ->
  notEmpty (prop (body req) "customer_id") = true ->
  responses (fst (serve PUT_orders_id req w)) =
    [(200, Json (JObj [("message", JStr "Order replaced")]))]
  /\ orders (snd (serve PUT_orders_id req w)) =
       map (fun o : order =>
              if sql_eq (ord_no o) (JStr (params_id req))
              then mk_order (stored (prop (body req) "ord_no"))
                            (stored (prop (body req) "purch_amt"))
                            (stored (prop (body req) "ord_date"))
                            (stored (prop (body req) "customer_id"))
              else o)
           (orders w)
  /\ (select_order (JStr (params_id req)) (orders w) = [] ->
      orders (snd (serve PUT_orders_id req w)) = orders w).
Proof.
  intros Hcalm H1 H2 H3 H4.
  assert (Hvalid : validationResult (chains_of PUT_orders_id) req = []).
  { cbn [chains_of]. rewrite put_order_validation. now apply valid_order_payload. }
  pose proof (serve_calm PUT_orders_id req w _ _ _ Hcalm eq_refl Hvalid
                (exec_put_order _ _ _ _ _ w)) as Hserve.
  rewrite Hserve. cbn [fst snd orders answer_of responses flat_map app].
  split; [reflexivity |]. split; [reflexivity |].
  intros Hnone. now apply put_order_none.
Qed.

(** C10. A PATCH /orders/:id whose body has no [purch_amt] passes
    validation, the rule being optional; with the driver calls going
    through, the handler submits the UPDATE with [undefined] bound for
    [purch_amt], and every matching row has its [purch_amt] overwritten
    with NULL.  (That the connector stores an [undefined] parameter as
    NULL is assumed here.) *)
Theorem patch_without_amount_overwrites_with_null (req : request) (w : world) :
  stored JUndefined = JNull ->
  body req !! "purch_amt" = None ->
  validationResult patch_order_chains req = []
  /\ (calm w = true ->
      fst (serve PATCH_orders_id req w) =
        [EvAcquired (next_conn w);
         EvQuery (next_conn w) sql_patch_order [JUndefined; JStr (params_id req)]
           (inr (OkPacket (count_matches (JStr (params_id req)) (orders w)) (JNum 0)));
         EvSend 200 (Json (JObj [("message", JStr "Order updated")]));
         EvEnd (next_conn w)]
      /\ orders (snd (serve PATCH_orders_id req w)) =
           map (fun o : order =>
                  if sql_eq (ord_no o) (JStr (params_id req))
                  then mk_order (ord_no o) JNull (ord_date o) (customer_id o)
                  else o)
               (orders w)).
Proof.
  intros Hnull Habsent.
  assert (Hprop : prop (body req) "purch_amt" = JUndefined).
  { unfold prop. now rewrite Habsent. }
  assert (Hvalid : validationResult patch_order_chains req = []).
  { rewrite patch_order_validation, Hprop. reflexivity. }
  split; [exact Hvalid |].
  intros Hcalm.
  pose proof (serve_calm PATCH_orders_id req w _ _ _ Hcalm eq_refl Hvalid
                (exec_patch_order _ _ w)) as Hserve.
  rewrite Hserve. cbn [fst snd orders params_of answer_of].
  rewrite Hprop. split; [reflexivity |].
  unfold patch_order, matches. now rewrite Hnull.
Qed.

(** *** Further properties of the handlers *)

(** Every run, case by case: the route has no statement; validation
    failed; no connection; statement rejected; statement run and the
    answer not serializable; statement run and answered. *)
Ltac by_paths r req w :=
  rewrite ?serve_paths;
  destruct (sql_of r) as [?sql |] eqn:?Hsql;
  [ destruct (isEmpty (validationResult (chains_of r) req)) eqn:?Hvalid;
    [ unfold paths;
      destruct (acquire w) as [[?e | ?c] ?w1] eqn:?Hacquire;
      [ | destruct (submit _ (params_of r req) _) as [[?e | ?res] ?w2] eqn:?Hsubmit;
          [ | destruct (answer_of r res) as [?e | [?status ?content]] eqn:?Hanswer ] ]
    | ]
  | ].

Lemma acquire_tables (w : world) :
  customer (snd (acquire w)) = customer w /\ orders (snd (acquire w)) = orders w.
Proof.
  unfold acquire.
  destruct (script w) as [| [e |] rest]; try (split; reflexivity);
    destruct (connectionLimit <=? in_use w); split; reflexivity.
Qed.

Lemma submit_tables (sql : string) (params : list jsval) (w : world) :
  customer (snd (submit sql params w)) = customer w
  /\ (orders (snd (submit sql params w)) = orders w
      \/ exists res : qresult,
           submit sql params w =
             (inr res, mk_world (customer w) (orders (snd (submit sql params w)))
                                (tail (script w)) (in_use w) (next_conn w))
           /\ exec sql params w = inr (res, orders (snd (submit sql params w)))).
Proof.
  unfold submit.
  destruct (script w) as [| [e |] rest]; try (split; [reflexivity | now left]);
    destruct (exec sql params w) as [e | [res os]] eqn:Hexec;
    cbn [snd customer orders]; split; try reflexivity; try (now left);
    right; exists res; split; reflexivity.
Qed.

(** The tables after a request: [customer] is never written, and
    [orders] is either what it was or what the route's statement, run on
    the tables as they were, makes of it. *)
Lemma serve_tables (r : route) (req : request) (w : world) :
  customer (snd (serve r req w)) = customer w
  /\ (orders (snd (serve r req w)) = orders w
      \/ exists (sql : string) (res : qresult),
           sql_of r = Some sql
           /\ responses (fst (serve r req w)) = [sent (answer_of r res)]
           /\ exec sql (params_of r req) w = inr (res, orders (snd (serve r req w)))).
Proof.
  by_paths r req w; try (split; [reflexivity | now left]).
  - destruct (acquire_tables w) as [Hc Ho]. rewrite Hacquire in Hc, Ho.
    cbn [snd] in Hc, Ho. split; [exact Hc | left; exact Ho].
  - destruct (acquire_tables w) as [Hc Ho]. rewrite Hacquire in Hc, Ho.
    cbn [snd] in Hc, Ho.
    destruct (submit_tables sql (params_of r req) w1) as [Hc2 Ho2].
    rewrite Hsubmit in Hc2, Ho2. cbn [snd] in Hc2, Ho2.
    cbn [snd release customer orders]. split; [congruence |].
    destruct Ho2 as [Ho2 | [res [Heq _]]]; [left; congruence | discriminate Heq].
  - destruct (acquire_tables w) as [Hc Ho]; rewrite Hacquire in Hc, Ho;
    cbn [snd] in Hc, Ho;
    destruct (submit_tables sql (params_of r req) w1) as [Hc2 Ho2];
    rewrite Hsubmit in Hc2, Ho2; cbn [snd] in Hc2, Ho2;
    cbn [snd fst release customer orders]; (split; [congruence |]);
    (destruct Ho2 as [Ho2 | [res0 [Heq Hexec]]]; [left; congruence |]);
    right; exists sql, res; (split; [reflexivity |]);
    (split; [rewrite Hanswer; reflexivity |]);
    inversion Heq; subst res0;
    rewrite <- (exec_tables sql (params_of r req) w w1 Hc Ho);
    exact Hexec.
  - destruct (acquire_tables w) as [Hc Ho]; rewrite Hacquire in Hc, Ho;
    cbn [snd] in Hc, Ho;
    destruct (submit_tables sql (params_of r req) w1) as [Hc2 Ho2];
    rewrite Hsubmit in Hc2, Ho2; cbn [snd] in Hc2, Ho2;
    cbn [snd fst release customer orders]; (split; [congruence |]);
    (destruct Ho2 as [Ho2 | [res0 [Heq Hexec]]]; [left; congruence |]);
    right; exists sql, res; (split; [reflexivity |]);
    (split; [rewrite Hanswer; reflexivity |]);
    inversion Heq; subst res0;
    rewrite <- (exec_tables sql (params_of r req) w w1 Hc Ho);
    exact Hexec.
Qed.

(** Every request is answered exactly once, whatever the route, the
    request and the state of the database side. *)
Theorem exactly_one_response (r : route) (req : request) (w : world) :
  length (responses (fst (serve r req w))) = 1.
Proof. by_paths r req w; reflexivity. Qed.

(** A request submits at most one statement.  A statement is submitted
    on the connection this request acquired, which is the one released
    afterwards; when no connection could be acquired, nothing is
    submitted and nothing is released. *)
Theorem statement_runs_on_the_acquired_connection
    (r : route) (req : request) (w : world) :
  length (queries (fst (serve r req w))) <= 1
  /\ (forall (c : nat) (sql : string) (params : list jsval) (o : string + qresult),
         In (EvQuery c sql params o) (fst (serve r req w)) ->
         acquired (fst (serve r req w)) = [c]
         /\ released (fst (serve r req w)) = [c])
  /\ (forall e : string,
         In (EvAcquireFailed e) (fst (serve r req w)) ->
         queries (fst (serve r req w)) = []
         /\ released (fst (serve r req w)) = []).
Proof.
  by_paths r req w; cbn;
    (split; [lia |]);
    (split; [intros k q ps o Hin | intros err Hin]);
    split_membership; split; reflexivity.
Qed.

(** Each route answers with one of its own status codes only: 404 comes
    from GET /orders/:id and from unmatched routes, 400 from the three
    routes that validate a body, 201 from POST /orders. *)
Theorem status_is_one_of_the_route (r : route) (req : request) (w : world) :
  Forall (fun a : nat * payload => In (fst a) (status_codes r))
         (responses (fst (serve r req w))).
Proof.
  by_paths r req w; cbn [fst sending responses flat_map app];
    (apply List.Forall_cons; [| apply List.Forall_nil]); cbn [fst].
  - destruct r; try discriminate Hsql; cbn; auto.
  - destruct r; try discriminate Hsql; cbn; auto.
  - destruct r; try discriminate Hsql; cbn; auto.
  - destruct r; try discriminate Hsql; cbn [answer_of] in Hanswer;
      unfold json_answer in Hanswer;
      try destruct (stringify _); try destruct (first_row res);
      inversion Hanswer; subst; cbn; auto.
  - destruct r; try discriminate Hsql; try discriminate Hvalid; cbn; auto.
  - destruct r; try discriminate Hsql. cbn. auto.
Qed.

(** A failure is written to the console exactly when the request is
    answered with 500, once, under the label of the route and with the
    error text that is sent; nothing else is ever written. *)
Theorem console_error_goes_with_status_500 (r : route) (req : request) (w : world) :
  consoles (fst (serve r req w)) =
  flat_map (fun a : nat * payload =>
              if fst a =? 500
              then match snd a with
                   | Text e => [(label_of r, e)]
                   | _ => []
                   end
              else [])
           (responses (fst (serve r req w))).
Proof.
  by_paths r req w; try reflexivity.
  destruct r; try discriminate Hsql; cbn [answer_of] in Hanswer;
    unfold json_answer in Hanswer;
    try destruct (stringify _); try destruct (first_row res);
    inversion Hanswer; subst; reflexivity.
Qed.

(** POST /orders runs all four checks and reports every value that
    fails one: field by field in the order [ord_no], [purch_amt],
    [ord_date], [customer_id], and within a field one violation per
    failing value (the elements of an array, the field value itself
    otherwise), each with the message of the rule and the failing value.
    The request is answered 400 exactly when that list is not empty, and
    then nothing else happens. *)
Theorem post_reports_every_failing_field (req : request) (w : world) :
  validationResult post_orders_chains req =
    map (mk_verror "ord_no" "Order number must be numeric")
        (List.filter (fun x => negb (check_isNumeric x))
                     (values (prop (body req) "ord_no")))
    ++ map (mk_verror "purch_amt" "Purchase amount must be a valid number")
           (List.filter (fun x => negb (check_isFloat x))
                        (values (prop (body req) "purch_amt")))
    ++ map (mk_verror "ord_date" "Order date must be a valid date")
           (List.filter (fun x => negb (check_isISO8601 x))
                        (values (prop (body req) "ord_date")))
    ++ map (mk_verror "customer_id" "Customer ID is required")
           (List.filter (fun x => negb (check_notEmpty x))
                        (values (prop (body req) "customer_id")))
  /\ (isEmpty (validationResult post_orders_chains req) = false ->
      serve POST_orders req w =
        ([EvSend 400 (Errors (validationResult post_orders_chains req))], w))
  /\ (isEmpty (validationResult post_orders_chains req) = true ->
      Forall (fun a : nat * payload => fst a = 201 \/ fst a = 500)
             (responses (fst (serve POST_orders req w)))).
Proof.
  split; [| split].
  - rewrite post_orders_validation, !field_errors_filter. reflexivity.
  - intros Hinvalid. rewrite serve_paths. cbn [sql_of chains_of].
    rewrite Hinvalid. reflexivity.
  - intros Hvalid. rewrite serve_paths. cbn [sql_of chains_of].
    rewrite Hvalid. unfold paths.
    destruct (acquire w) as [[e | c] w1];
      [| destruct (submit _ _ w1) as [[e | res] w2]]; cbn [fst];
      [ | | cbn [answer_of]; unfold json_answer; destruct (stringify _) ];
      cbn; (apply List.Forall_cons; [cbn [fst]; auto | apply List.Forall_nil]).
Qed.

(** PUT /orders/:id with a body that fails any of the four checks is
    answered 400 with the violations, the failing field among them; no
    connection is asked for and the database side is as it was. *)
Theorem put_with_a_failing_field_is_rejected_before_the_pool
    (req : request) (w : world) (field : string) (check : jsval -> bool) :
  In (field, check)
     [("ord_no", isNumeric); ("purch_amt", isFloat);
      ("ord_date", isISO8601); ("customer_id", notEmpty)] ->
  check (prop (body req) field) = false ->
  serve PUT_orders_id req w =
    ([EvSend 400 (Errors (validationResult put_order_chains req))], w)
  /\ In field (map ve_path (validationResult put_order_chains req)).
Proof.
  intros Hfield Hfails.
  assert (Hin : In field (map ve_path (validationResult put_order_chains req))).
  { rewrite put_order_validation, post_orders_validation, !map_app.
    cbn [In] in Hfield.
    destruct Hfield as [H | [H | [H | [H | []]]]]; inversion H; subst;
      repeat (first [ now (apply in_or_app; left; apply field_errors_fails)
                    | apply in_or_app; right ]);
      now apply field_errors_fails. }
  split; [| exact Hin].
  rewrite serve_paths. cbn [sql_of chains_of].
  destruct (validationResult put_order_chains req) as [| err errs];
    [destruct Hin | reflexivity].
Qed.

(** PATCH /orders/:id with a [purch_amt] that is present, even as
    [null], and fails the number check is answered 400 before any
    connection is asked for, with one violation per failing value (the
    elements of an array, the field value itself otherwise), at least
    one. *)
Theorem patch_with_a_malformed_amount_is_rejected (req : request) (w : world) :
  is_undefined (prop (body req) "purch_amt") = false ->
  isFloat (prop (body req) "purch_amt") = false ->
  serve PATCH_orders_id req w =
    ([EvSend 400
        (Errors (map (mk_verror "purch_amt" "Purchase amount must be a valid number")
                     (List.filter (fun x => negb (check_isFloat x))
                                  (values (prop (body req) "purch_amt")))))],
     w)
  /\ exists (x : jsval) (others : list jsval),
       List.filter (fun x => negb (check_isFloat x))
                   (values (prop (body req) "purch_amt")) = x :: others.
Proof.
  intros Hpresent Hfails.
  assert (Hsome : exists (x : jsval) (others : list jsval),
             List.filter (fun x => negb (check_isFloat x))
                         (values (prop (body req) "purch_amt")) = x :: others).
  { pose proof (field_errors_fails "purch_amt" EmptyString check_isFloat _ Hfails) as Hin.
    rewrite field_errors_filter in Hin.
    destruct (List.filter _ _) as [| x others]; [destruct Hin | eauto]. }
  split; [| exact Hsome].
  rewrite serve_paths. cbn [sql_of chains_of].
  rewrite patch_order_validation, Hpresent, field_errors_filter.
  destruct Hsome as (x & others & ->). reflexivity.
Qed.

(** *** What the statements do to the table *)

Lemma patch_order_twice (amt id : jsval) (os : list order) :
  patch_order amt id (patch_order amt id os) = patch_order amt id os.
Proof.
  unfold patch_order. rewrite map_map. apply map_ext. intros o.
  destruct (matches id o) eqn:E.
  - unfold matches in *. cbn [ord_no]. now rewrite E.
  - now rewrite E.
Qed.

Lemma put_order_twice (no amt date cust id : jsval) (os : list order) :
  put_order no amt date cust id (put_order no amt date cust id os)
  = put_order no amt date cust id os.
Proof.
  unfold put_order. rewrite map_map. apply map_ext. intros o.
  destruct (matches id o) eqn:E.
  - destruct (matches id (mk_order _ _ _ _)); reflexivity.
  - now rewrite E.
Qed.

Lemma select_after_delete (id : jsval) (os : list order) :
  select_order id (delete_order id os) = [].
Proof.
  unfold select_order, delete_order. induction os as [| o os IH]; [reflexivity |].
  cbn [List.filter]. destruct (matches id o) eqn:E; cbn [negb]; [exact IH |].
  cbn [List.filter]. now rewrite E.
Qed.

Lemma select_after_rekey (no amt date cust id : jsval) (os : list order) :
  sql_eq (stored no) id = false ->
  select_order id (put_order no amt date cust id os) = [].
Proof.
  intros Hne. unfold select_order, put_order.
  induction os as [| o os IH]; [reflexivity |].
  cbn [map List.filter]. destruct (matches id o) eqn:E.
  - unfold matches at 1. cbn [ord_no]. now rewrite Hne.
  - now rewrite E.
Qed.

Lemma select_new_key (no amt date cust id id' : jsval) (os : list order)
    (o : order) (rest : list order) :
  select_order id os = o :: rest ->
  select_order id' os = [] ->
  sql_eq (stored no) id' = true ->
  exists others : list order,
    select_order id' (put_order no amt date cust id os)
    = mk_order (stored no) (stored amt) (stored date) (stored cust) :: others.
Proof.
  unfold select_order, put_order. revert o rest.
  induction os as [| a os IH]; intros o rest Hsome Hnone Hnew; [discriminate |].
  cbn [List.filter] in Hsome, Hnone. cbn [map List.filter].
  destruct (matches id' a) eqn:Ea'; [discriminate |].
  destruct (matches id a) eqn:Ea.
  - unfold matches at 1. cbn [ord_no]. rewrite Hnew. eauto.
  - rewrite Ea'. now apply (IH o rest).
Qed.

Lemma patch_order_frame (amt id : jsval) (os : list order) :
  map ord_no (patch_order amt id os) = map ord_no os
  /\ map ord_date (patch_order amt id os) = map ord_date os
  /\ map customer_id (patch_order amt id os) = map customer_id os
  /\ Forall2 (fun o o' : order => sql_eq (ord_no o) id = true \/ o' = o)
             os (patch_order amt id os).
Proof.
  unfold patch_order. induction os as [| o os (IH1 & IH2 & IH3 & IH4)].
  - repeat split; constructor.
  - cbn [map]. rewrite IH1, IH2, IH3.
    destruct (matches id o) eqn:E; cbn [ord_no ord_date customer_id];
      repeat split; constructor; auto.
Qed.

Lemma same_table_frame (id : jsval) (os : list order) :
  Forall2 (fun o o' : order => sql_eq (ord_no o) id = true \/ o' = o) os os.
Proof. induction os; constructor; auto. Qed.

(** The table after a request on each of the routes that write. *)
Lemma patch_tables (req : request) (w : world) :
  orders (snd (serve PATCH_orders_id req w)) = orders w
  \/ orders (snd (serve PATCH_orders_id req w)) =
       patch_order (prop (body req) "purch_amt") (JStr (params_id req)) (orders w).
Proof.
  destruct (serve_tables PATCH_orders_id req w) as [_ [H | (sql & res & Hsql & _ & Hexec)]];
    [now left | right].
  inversion Hsql; subst sql. cbn [params_of] in Hexec.
  rewrite exec_patch_order in Hexec. now inversion Hexec.
Qed.

Lemma read_only_tables (r : route) (req : request) (w : world) :
  In r [GET_users; GET_orders; GET_orders_id; Unmatched] ->
  orders (snd (serve r req w)) = orders w.
Proof.
  intros Hr.
  destruct (serve_tables r req w) as [_ [H | (sql & res & Hsql & _ & Hexec)]];
    [exact H |].
  cbn [In] in Hr. destruct Hr as [<- | [<- | [<- | [<- | []]]]];
    inversion Hsql; subst sql; cbn [params_of] in Hexec.
  - rewrite exec_list_customers in Hexec. now inversion Hexec.
  - rewrite exec_list_orders in Hexec. now inversion Hexec.
  - rewrite exec_get_order in Hexec. now inversion Hexec.
Qed.

(** Whatever happens to a PATCH /orders/:id, the table keeps its rows in
    place with their [ord_no], [ord_date] and [customer_id], and a row
    whose [ord_no] does not match the path id is not touched at all. *)
Theorem patch_touches_only_the_amount_of_matching_rows (req : request) (w : world) :
  map ord_no (orders (snd (serve PATCH_orders_id req w))) = map ord_no (orders w)
  /\ map ord_date (orders (snd (serve PATCH_orders_id req w))) = map ord_date (orders w)
  /\ map customer_id (orders (snd (serve PATCH_orders_id req w)))
     = map customer_id (orders w)
  /\ Forall2 (fun o o' : order =>
                sql_eq (ord_no o) (JStr (params_id req)) = true \/ o' = o)
             (orders w) (orders (snd (serve PATCH_orders_id req w))).
Proof.
  destruct (patch_tables req w) as [-> | ->].
  - repeat split; try reflexivity. apply same_table_frame.
  - apply patch_order_frame.
Qed.

(** The same well-formed PATCH /orders/:id sent twice, with the driver
    calls going through, is answered 200 both times and leaves the table
    as the first one left it. *)
Theorem patch_twice_is_patch_once (req : request) (w : world) :
  calm w = true ->
  is_undefined (prop (body req) "purch_amt") = true
  \/ isFloat (prop (body req) "purch_amt") = true ->
  responses (fst (serve PATCH_orders_id req (snd (serve PATCH_orders_id req w)))) =
    [(200, Json (JObj [("message", JStr "Order updated")]))]
  /\ orders (snd (serve PATCH_orders_id req (snd (serve PATCH_orders_id req w)))) =
       orders (snd (serve PATCH_orders_id req w)).
Proof.
  intros Hcalm Hbody.
  assert (Hvalid : validationResult (chains_of PATCH_orders_id) req = []).
  { cbn [chains_of]. now apply valid_patch_body. }
  rewrite (serve_calm PATCH_orders_id req w _ _ _ Hcalm eq_refl Hvalid
             (exec_patch_order _ _ w)).
  cbn [snd].
  rewrite (serve_calm PATCH_orders_id req _ _ _ _
             (calm_after w _ (S (next_conn w)) Hcalm) eq_refl Hvalid
             (exec_patch_order _ _ _)).
  cbn [fst snd orders params_of]. split; [reflexivity |].
  apply patch_order_twice.
Qed.

(** The same valid PUT /orders/:id sent twice, with the driver calls
    going through, is answered 200 both times and leaves the table as the
    first one left it, whether or not the body changes the order number. *)
Theorem put_twice_is_put_once (req : request) (w : world) :
  calm w = true ->
  isNumeric (prop (body req) "ord_no") = true ->
  isFloat (prop (body req) "purch_amt") = true ->
  isISO8601 (prop (body req) "ord_date") = true ->
  notEmpty (prop (body req) "customer_id") = true ->
  responses (fst (serve PUT_orders_id req (snd (serve PUT_orders_id req w)))) =
    [(200, Json (JObj [("message", JStr "Order replaced")]))]
  /\ orders (snd (serve PUT_orders_id req (snd (serve PUT_orders_id req w)))) =
       orders (snd (serve PUT_orders_id req w)).
Proof.
  intros Hcalm H1 H2 H3 H4.
  assert (Hvalid : validationResult (chains_of PUT_orders_id) req = []).
  { cbn [chains_of]. rewrite put_order_validation. now apply valid_order_payload. }
  rewrite (serve_calm PUT_orders_id req w _ _ _ Hcalm eq_refl Hvalid
             (exec_put_order _ _ _ _ _ w)).
  cbn [snd].
  rewrite (serve_calm PUT_orders_id req _ _ _ _
             (calm_after w _ (S (next_conn w)) Hcalm) eq_refl Hvalid
             (exec_put_order _ _ _ _ _ _)).
  cbn [fst snd orders params_of]. split; [reflexivity |].
  apply put_order_twice.
Qed.

(** A valid PUT /orders/:id whose body carries an order number that the
    server does not equate with the path id moves the order away from
    that id: with the driver calls going through, a GET on the path id
    that follows answers 404.  If a row matched the path id and no row
    matched a second id that the server equates with the new order
    number, a GET on that second id answers 200 with the replaced row. *)
Theorem put_moves_the_order_to_the_number_of_the_body
    (req get_old get_new : request) (w : world) :
  calm w = true ->
  isNumeric (prop (body req) "ord_no") = true ->
  isFloat (prop (body req) "purch_amt") = true ->
  isISO8601 (prop (body req) "ord_date") = true ->
  notEmpty (prop (body req) "customer_id") = true ->
  params_id get_old = params_id req ->
  sql_eq (stored (prop (body req) "ord_no")) (JStr (params_id req)) = false ->
  responses (fst (serve GET_orders_id get_old (snd (serve PUT_orders_id req w)))) =
    [(404, Json (JObj [("message", JStr "Order not found")]))]
  /\ (forall (o : order) (rest : list order),
         select_order (JStr (params_id req)) (orders w) = o :: rest ->
         select_order (JStr (params_id get_new)) (orders w) = [] ->
         sql_eq (stored (prop (body req) "ord_no")) (JStr (params_id get_new)) = true ->
         responses (fst (serve GET_orders_id get_new (snd (serve PUT_orders_id req w)))) =
           [(200, Json (order_row
                          (mk_order (stored (prop (body req) "ord_no"))
                                    (stored (prop (body req) "purch_amt"))
                                    (stored (prop (body req) "ord_date"))
                                    (stored (prop (body req) "customer_id")))))]).
Proof.
  intros Hcalm H1 H2 H3 H4 Hold Hmoved.
  assert (Hvalid : validationResult (chains_of PUT_orders_id) req = []).
  { cbn [chains_of]. rewrite put_order_validation. now apply valid_order_payload. }
  rewrite (serve_calm PUT_orders_id req w _ _ _ Hcalm eq_refl Hvalid
             (exec_put_order _ _ _ _ _ w)).
  cbn [snd]. split.
  - rewrite (serve_calm GET_orders_id get_old _ _ _ _
               (calm_after w _ (S (next_conn w)) Hcalm) eq_refl eq_refl
               (exec_get_order _ _)).
    cbn [fst orders params_of]. rewrite Hold, select_after_rekey by exact Hmoved.
    reflexivity.
  - intros o rest Hsome Hnone Hnew.
    rewrite (serve_calm GET_orders_id get_new _ _ _ _
               (calm_after w _ (S (next_conn w)) Hcalm) eq_refl eq_refl
               (exec_get_order _ _)).
    cbn [fst orders params_of].
    destruct (select_new_key _ (prop (body req) "purch_amt")
                (prop (body req) "ord_date") (prop (body req) "customer_id")
                _ _ _ o rest Hsome Hnone Hnew) as [others ->].
    reflexivity.
Qed.

(** With the driver calls going through, DELETE /orders/:id removes
    exactly the rows whose [ord_no] matches the id, and a GET on the same
    id that follows answers 404. *)
Theorem delete_removes_the_matching_rows (req get : request) (w : world) :
  calm w = true ->
  params_id get = params_id req ->
  responses (fst (serve GET_orders_id get (snd (serve DELETE_orders_id req w)))) =
    [(404, Json (JObj [("message", JStr "Order not found")]))]
  /\ (forall o : order,
         In o (orders (snd (serve DELETE_orders_id req w))) <->
         In o (orders w) /\ sql_eq (ord_no o) (JStr (params_id req)) = false).
Proof.
  intros Hcalm Hid.
  rewrite (serve_calm DELETE_orders_id req w _ _ _ Hcalm eq_refl eq_refl
             (exec_delete_order _ w)).
  cbn [snd]. split.
  - rewrite (serve_calm GET_orders_id get _ _ _ _
               (calm_after w _ (S (next_conn w)) Hcalm) eq_refl eq_refl
               (exec_get_order _ _)).
    cbn [fst orders params_of]. rewrite Hid, select_after_delete. reflexivity.
  - intros o. cbn [orders params_of]. unfold delete_order, matches.
    rewrite List.filter_In. rewrite Bool.negb_true_iff. reflexivity.
Qed.

(** With the driver calls going through, GET /orders answers 200 with
    every row of the table, in table order; after a valid POST /orders
    the list is the one from before followed by the new row. *)
Theorem get_orders_lists_the_table (req list : request) (w : world) :
  calm w = true ->
  responses (fst (serve GET_orders list w)) =
    [(200, Json (JArr (map order_row (orders w))))]
  /\ (isNumeric (prop (body req) "ord_no") = true ->
      isFloat (prop (body req) "purch_amt") = true ->
      isISO8601 (prop (body req) "ord_date") = true ->
      notEmpty (prop (body req) "customer_id") = true ->
      responses (fst (serve GET_orders list (snd (serve POST_orders req w)))) =
        [(200, Json (JArr (map order_row (orders w)
                           ++ [order_row
                                 (mk_order (stored (prop (body req) "ord_no"))
                                           (stored (prop (body req) "purch_amt"))
                                           (stored (prop (body req) "ord_date"))
                                           (stored (prop (body req) "customer_id")))])))]).
Proof.
  intros Hcalm. split.
  - rewrite (serve_calm GET_orders list w _ _ _ Hcalm eq_refl eq_refl
               (exec_list_orders w)).
    reflexivity.
  - intros H1 H2 H3 H4.
    assert (Hvalid : validationResult (chains_of POST_orders) req = []).
    { cbn [chains_of]. now apply valid_order_payload. }
    rewrite (serve_calm POST_orders req w _ _ _ Hcalm eq_refl Hvalid
               (exec_insert_order _ _ _ _ w)).
    cbn [snd].
    rewrite (serve_calm GET_orders list _ _ _ _
               (calm_after w _ (S (next_conn w)) Hcalm) eq_refl eq_refl
               (exec_list_orders _)).
    cbn [fst orders]. rewrite map_app. reflexivity.
Qed.

(** The three GET routes and the unmatched routes leave table [orders]
    as it was, whatever the request and whatever the driver calls do. *)
Theorem reads_never_write :
  (forall (req : request) (w : world),
      orders (snd (serve GET_users req w)) = orders w)
  /\ (forall (req : request) (w : world),
         orders (snd (serve GET_orders req w)) = orders w)
  /\ (forall (req : request) (w : world),
         orders (snd (serve GET_orders_id req w)) = orders w)
  /\ (forall (req : request) (w : world),
         orders (snd (serve Unmatched req w)) = orders w).
Proof.
  repeat split; intros req w; apply read_only_tables; cbn; tauto.
Qed.

Lemma submit_done (sql : string) (params : list jsval) (w w2 : world) (res : qresult) :
  submit sql params w = (inr res, w2) ->
  exec sql params w = inr (res, orders w2).
Proof.
  unfold submit.
  destruct (script w) as [| [e |] rest]; try discriminate;
    destruct (exec sql params w) as [e | [r os]]; try discriminate;
    intros H; inversion H; subst; reflexivity.
Qed.

Lemma submit_rejected (sql : string) (params : list jsval) (w w2 : world) (e : string) :
  submit sql params w = (inl e, w2) -> orders w2 = orders w.
Proof.
  unfold submit.
  destruct (script w) as [| [e0 |] rest];
    try (intros H; inversion H; subst; reflexivity);
    destruct (exec sql params w) as [e1 | [r os]]; try discriminate;
    intros H; inversion H; subst; reflexivity.
Qed.

Lemma select_first (id : jsval) (os : list order) (o : order) (rest : list order) :
  select_order id os = o :: rest ->
  matches id o = true
  /\ exists before after : list order,
       os = before ++ o :: after /\ select_order id before = [].
Proof.
  unfold select_order. induction os as [| a os IH]; [discriminate |].
  cbn [List.filter]. destruct (matches id a) eqn:Ea.
  - intros H. inversion H; subst. split; [exact Ea |].
    exists [], os. split; reflexivity.
  - intros H. destruct (IH H) as [Hm (before & after & -> & Hnone)].
    split; [exact Hm |]. exists (a :: before), after.
    split; [reflexivity |]. cbn [List.filter]. now rewrite Ea.
Qed.

(** Whatever the state of the database side, a row that GET /orders/:id
    answers with status 200 is a row of the table whose [ord_no] matches
    the id, and the first such row in table order. *)
Theorem get_order_answers_only_with_the_first_matching_row
    (req : request) (w : world) (row : jsval) :
  responses (fst (serve GET_orders_id req w)) = [(200, Json row)] ->
  exists (o : order) (before after : list order),
    row = order_row o
    /\ orders w = before ++ o :: after
    /\ sql_eq (ord_no o) (JStr (params_id req)) = true
    /\ select_order (JStr (params_id req)) before = [].
Proof.
  rewrite serve_paths. cbn [sql_of chains_of validationResult flat_map isEmpty].
  unfold paths.
  destruct (acquire_tables w) as [Hc Ho].
  destruct (acquire w) as [[e | c] w1]; [discriminate |].
  cbn [snd] in Hc, Ho.
  destruct (submit _ _ w1) as [[e | res] w2] eqn:Hsubmit; [discriminate |].
  apply submit_done in Hsubmit.
  rewrite (exec_tables _ _ w w1 Hc Ho) in Hsubmit. cbn [params_of] in Hsubmit.
  rewrite exec_get_order in Hsubmit. inversion Hsubmit as [[Hres Hw2]]. clear Hsubmit.
  cbn [fst responses flat_map app answer_of first_row].
  destruct (select_order (JStr (params_id req)) (orders w)) as [| o rest] eqn:Hsel;
    cbn [map]; intros Hrow; inversion Hrow; subst row.
  destruct (select_first _ _ _ _ Hsel) as [Hm (before & after & Hsplit & Hnone)].
  exists o, before, after. repeat split; assumption.
Qed.

(** Whatever happens to a POST /orders, the rows that were in the table
    stay as they were and where they were.  Either the table is
    unchanged and the answer is 400 or 500, or the statement ran and the
    table is the table before followed by the new row; the answer is
    then 201 with the insert id when the connector reports it as a
    Number, and 500 when it reports a BigInt, which [res.json] cannot
    serialize: the row is in the table all the same. *)
Theorem post_only_appends (req : request) (w : world) :
  (orders (snd (serve POST_orders req w)) = orders w
   /\ Forall (fun a : nat * payload => fst a = 400 \/ fst a = 500)
             (responses (fst (serve POST_orders req w))))
  \/ (orders (snd (serve POST_orders req w)) =
        orders w ++ [mk_order (stored (prop (body req) "ord_no"))
                              (stored (prop (body req) "purch_amt"))
                              (stored (prop (body req) "ord_date"))
                              (stored (prop (body req) "customer_id"))]
      /\ responses (fst (serve POST_orders req w)) =
           [match insert_id (orders w)
                    (mk_order (stored (prop (body req) "ord_no"))
                              (stored (prop (body req) "purch_amt"))
                              (stored (prop (body req) "ord_date"))
                              (stored (prop (body req) "customer_id")))
            with
            | AsNumber q =>
                (201, Json (JObj [("message", JStr "Order created");
                                  ("orderId", JNum q)]))
            | AsBigInt _ => (500, Text bigint_error)
            end]).
Proof.
  rewrite serve_paths. cbn [sql_of chains_of].
  destruct (isEmpty _).
  2: { left. split; [reflexivity |].
       apply List.Forall_cons; [cbn [fst]; auto | apply List.Forall_nil]. }
  unfold paths.
  destruct (acquire_tables w) as [Hc Ho].
  destruct (acquire w) as [[e | c] w1]; cbn [snd] in Hc, Ho.
  { left. split; [exact Ho |].
    apply List.Forall_cons; [cbn [fst]; auto | apply List.Forall_nil]. }
  destruct (submit _ _ w1) as [[e | res] w2] eqn:Hsubmit.
  - left. apply submit_rejected in Hsubmit. cbn [snd release orders]. split; [congruence |].
    apply List.Forall_cons; [cbn [fst]; auto | apply List.Forall_nil].
  - right. apply submit_done in Hsubmit.
    rewrite (exec_tables _ _ w w1 Hc Ho) in Hsubmit. cbn [params_of] in Hsubmit.
    rewrite exec_insert_order in Hsubmit. inversion Hsubmit as [[Hres Hw2]].
    cbn [snd release orders]. split; [symmetry; exact Hw2 |].
    unfold new_order.
    destruct (insert_id _ _); reflexivity.
Qed.

End App.

(** ** The echo function *)

Lemma echo_greets_with_keyword (params : gmap string string) (keyword : string) :
  params !! "keyword" = Some keyword ->
  keyword <> EmptyString ->
  Echo.handler (Echo.mk_event (Some params)) =
  Normal (Echo.mk_response 200 (Echo.stringify_message ("Tanvi says " +:+ keyword))).
Proof.
  intros Hk Hne. unfold Echo.handler. cbn [Echo.queryStringParameters].
  rewrite Hk. unfold Echo.or_else.
  destruct (String.eqb_spec keyword EmptyString) as [-> | _]; [now destruct Hne |].
  reflexivity.
Qed.

Lemma echo_greets_with_placeholder (params : gmap string string) :
  params !! "keyword" = None ->
  Echo.handler (Echo.mk_event (Some params)) =
  Normal (Echo.mk_response 200
            (Echo.stringify_message "Tanvi says no keyword provided")).
Proof.
  intros Hk. unfold Echo.handler. cbn [Echo.queryStringParameters].
  rewrite Hk. reflexivity.
Qed.

Lemma string_append_assoc (a b c : string) :
  (a +:+ b) +:+ c = a +:+ (b +:+ c).
Proof.
  induction a as [| x a IH]; [reflexivity |].
  change (String x ((a +:+ b) +:+ c) = String x (a +:+ (b +:+ c))).
  now rewrite IH.
Qed.

(** One character as [JSON.stringify] writes it reads back as that
    character, whatever follows. *)
Lemma read_chars_json_char (a : ascii) (rest : string) :
  Echo.read_chars (Echo.json_char a +:+ rest) = Echo.push a (Echo.read_chars rest).
Proof. destruct a as [[] [] [] [] [] [] [] []]; reflexivity. Qed.

(** What [JSON.stringify] writes for a string reads back as that string:
    the closing quote is found where the literal ends, whatever
    characters the string holds. *)
Lemma read_chars_json_chars (s rest : string) :
  Echo.read_chars (Echo.json_chars s +:+ String (ascii_of_nat 34) rest) = Some (s, rest).
Proof.
  induction s as [| a s IH]; [reflexivity |].
  cbn [Echo.json_chars].
  rewrite string_append_assoc, read_chars_json_char, IH. reflexivity.
Qed.

Lemma parse_message_stringify (text : string) :
  Echo.parse_message (Echo.stringify_message text) = Some text.
Proof.
  unfold Echo.stringify_message, Echo.json_string.
  rewrite !string_append_assoc.
  change (Echo.parse_message
            (String "{" (String (ascii_of_nat 34)
               (Echo.json_chars "message" +:+ String (ascii_of_nat 34)
                  (String ":" (String (ascii_of_nat 34)
                     (Echo.json_chars text +:+ String (ascii_of_nat 34) "}"))))))
          = Some text).
  unfold Echo.parse_message.
  rewrite read_chars_json_chars.
  change ((nat_of_ascii "{" =? 123) && (nat_of_ascii (ascii_of_nat 34) =? 34)) with true.
  cbv iota.
  change (String.eqb "message" "message" && (nat_of_ascii ":" =? 58)
          && (nat_of_ascii (ascii_of_nat 34) =? 34)) with true.
  cbv iota.
  rewrite read_chars_json_chars. reflexivity.
Qed.

(** With a parameter map in the event, the handler always answers 200
    with the greeting; the text greeted with is the keyword when it is
    there and not empty, and the placeholder when the keyword is missing
    or empty, so that the greeting never ends in an empty keyword. *)
Theorem echo_greets_with_keyword_or_placeholder (params : gmap string string) :
  exists text : string,
    Echo.handler (Echo.mk_event (Some params)) =
      Normal (Echo.mk_response 200 (Echo.stringify_message ("Tanvi says " +:+ text)))
    /\ String.eqb text EmptyString = false
    /\ (params !! "keyword" = Some text
        \/ ((params !! "keyword" = None \/ params !! "keyword" = Some EmptyString)
            /\ text = "no keyword provided")).
Proof.
  unfold Echo.handler. cbn [Echo.queryStringParameters].
  destruct (params !! "keyword") as [k |] eqn:Hk.
  - unfold Echo.or_else. destruct (String.eqb k EmptyString) eqn:He.
    + apply String.eqb_eq in He. subst k.
      exists "no keyword provided". repeat split. right. split; [now right | reflexivity].
    + exists k. repeat split; [exact He | now left].
  - exists "no keyword provided". repeat split. right. split; [now left | reflexivity].
Qed.

(** The body the handler answers with is the JSON text of an object
    with the single property [message], and the greeting reads back from
    it unchanged: quotes, backslashes and control characters in the
    keyword are escaped and cannot end the string early. *)
Theorem echo_body_reads_back_as_the_greeting (params : gmap string string) :
  exists response : Echo.response,
    Echo.handler (Echo.mk_event (Some params)) = Normal response
    /\ Echo.parse_message (Echo.body response) =
         Some ("Tanvi says "
               +:+ Echo.or_else (params !! "keyword") "no keyword provided").
Proof.
  eexists. split; [reflexivity |].
  cbn [Echo.body]. apply parse_message_stringify.
Qed.

(** C9, where the code departs from it.  An event without any query
    string has [queryStringParameters] null; reading [keyword] from it
    throws, so the handler's promise is rejected and no response, hence
    no placeholder greeting, is returned. *)
Theorem echo_rejects_an_event_without_query_string :
  Echo.handler (Echo.mk_event None) =
  Throw "TypeError: Cannot read properties of null (reading 'keyword')".
Proof. reflexivity. Qed.

(** ** The claims on the sample instance *)

Abbreviation sample_serve :=
  (serve Sample.isNumeric Sample.isFloat Sample.isISO8601 Sample.notEmpty
         Sample.sql_eq Sample.stored Sample.insert_id).

(** The same with a connector that reports the insert id as a BigInt. *)
Abbreviation sample_serve_bigint :=
  (serve Sample.isNumeric Sample.isFloat Sample.isISO8601 Sample.notEmpty
         Sample.sql_eq Sample.stored Sample.insert_id_bigint).

(** C1, where the code departs from it.  The order of the scenario is
    posted to an empty table without AUTO_INCREMENT column.  The handler
    answers with [result.insertId], not with the order number: where the
    connector reports the insert id as a Number, the answer is 201 with
    [orderId] 0, GET /orders/0 answers 404, and the row is found under
    its order number 1001 only; where the connector reports a BigInt,
    [res.json] throws on it, so that the answer is 500 although the row
    was inserted. *)
Theorem order_id_answered_is_the_insert_id :
  (responses (fst (sample_serve POST_orders (Sample.with_body Sample.body_1001)
                                (Sample.db []))) =
     [(201, Json (JObj [("message", JStr "Order created"); ("orderId", JNum 0)]))]
   /\ responses
        (fst (sample_serve GET_orders_id (Sample.with_id "0")
                (snd (sample_serve POST_orders (Sample.with_body Sample.body_1001)
                                   (Sample.db []))))) =
        [(404, Json (JObj [("message", JStr "Order not found")]))]
   /\ responses
        (fst (sample_serve GET_orders_id (Sample.with_id "1001")
                (snd (sample_serve POST_orders (Sample.with_body Sample.body_1001)
                                   (Sample.db []))))) =
        [(200, Json (order_row Sample.order_1001))])
  /\ sample_serve_bigint POST_orders (Sample.with_body Sample.body_1001) (Sample.db []) =
       ([EvAcquired 0;
         EvQuery 0 sql_insert_order
           [JNum 1001; JNum (301 # 2); JStr "2024-01-01"; JStr "C001"]
           (inr (OkPacketBigInt 1 0));
         EvConsoleError "Error inserting order:" bigint_error;
         EvSend 500 (Text bigint_error);
         EvEnd 0],
        mk_world [] [Sample.order_1001] [] 0 1).
Proof. vm_compute. repeat split. Qed.

(** C3 as stated fails: when the statement is rejected, the 500 response
    is sent in the catch block and the connection is released after it,
    in the finally block. *)
Lemma response_500_precedes_release :
  fst (sample_serve DELETE_orders_id (Sample.with_id "1001")
         (Sample.db_failing [Sample.order_1001] [None; Some "Connection lost"])) =
  [EvAcquired 0;
   EvQuery 0 sql_delete_order [JStr "1001"] (inl "Connection lost");
   EvConsoleError "Error deleting order:" "Connection lost";
   EvSend 500 (Text "Connection lost");
   EvEnd 0].
Proof. vm_compute. reflexivity. Qed.


Lemma get_order_witness :
  responses (fst (sample_serve GET_orders_id (Sample.with_id "7")
                               (Sample.db [Sample.order_1001]))) =
    [(404, Json (JObj [("message", JStr "Order not found")]))]
  /\ responses (fst (sample_serve GET_orders_id (Sample.with_id "1001")
                                  (Sample.db [Sample.order_1001]))) =
       [(200, Json (order_row Sample.order_1001))].
Proof.
  split.
  - apply (proj1 (get_order_answers_404_or_first_row
                    Sample.isNumeric Sample.isFloat Sample.isISO8601 Sample.notEmpty
                    Sample.sql_eq Sample.stored Sample.insert_id
                    (Sample.with_id "7") (Sample.db [Sample.order_1001]) eq_refl)).
    reflexivity.
  - apply (proj2 (get_order_answers_404_or_first_row
                    Sample.isNumeric Sample.isFloat Sample.isISO8601 Sample.notEmpty
                    Sample.sql_eq Sample.stored Sample.insert_id
                    (Sample.with_id "1001") (Sample.db [Sample.order_1001]) eq_refl)
             Sample.order_1001 []).
    reflexivity.
Defined.

Lemma patch_missing_order_witness :
  responses
    (fst (sample_serve PATCH_orders_id
            (Sample.with_id_and_body "7" {["purch_amt" := JNum 200]})
            (Sample.db [Sample.order_1001]))) =
    [(200, Json (JObj [("message", JStr "Order updated")]))]
  /\ orders
       (snd (sample_serve PATCH_orders_id
               (Sample.with_id_and_body "7" {["purch_amt" := JNum 200]})
               (Sample.db [Sample.order_1001]))) =
       [Sample.order_1001].
Proof.
  pose proof (proj1 (patch_answers_200_without_existence_check
                       Sample.isNumeric Sample.isFloat Sample.isISO8601
                       Sample.notEmpty Sample.sql_eq Sample.stored Sample.insert_id)
                (Sample.with_id_and_body "7" {["purch_amt" := JNum 200]})
                (Sample.db [Sample.order_1001]) eq_refl (or_intror eq_refl))
    as [Hanswer Htable].
  split; [exact Hanswer | exact (Htable eq_refl)].
Defined.

Lemma delete_twice_witness :
  responses (fst (sample_serve DELETE_orders_id (Sample.with_id "1001")
                               (Sample.db [Sample.order_1001]))) =
    [(200, Json (JObj [("message", JStr "Order deleted")]))]
  /\ responses
       (fst (sample_serve DELETE_orders_id (Sample.with_id "1001")
               (snd (sample_serve DELETE_orders_id (Sample.with_id "1001")
                                  (Sample.db [Sample.order_1001]))))) =
       [(200, Json (JObj [("message", JStr "Order deleted")]))]
  /\ orders
       (snd (sample_serve DELETE_orders_id (Sample.with_id "1001")
               (snd (sample_serve DELETE_orders_id (Sample.with_id "1001")
                                  (Sample.db [Sample.order_1001]))))) =
       orders (snd (sample_serve DELETE_orders_id (Sample.with_id "1001")
                                 (Sample.db [Sample.order_1001])))
  /\ customer
       (snd (sample_serve DELETE_orders_id (Sample.with_id "1001")
               (snd (sample_serve DELETE_orders_id (Sample.with_id "1001")
                                  (Sample.db [Sample.order_1001]))))) =
       customer (snd (sample_serve DELETE_orders_id (Sample.with_id "1001")
                                   (Sample.db [Sample.order_1001]))).
Proof.
  exact (delete_twice_is_delete_once
           Sample.isNumeric Sample.isFloat Sample.isISO8601 Sample.notEmpty
           Sample.sql_eq Sample.stored Sample.insert_id
           (Sample.with_id "1001") (Sample.db [Sample.order_1001]) eq_refl).
Defined.

Lemma put_witness :
  responses
    (fst (sample_serve PUT_orders_id
            (Sample.with_id_and_body "7" Sample.body_1001)
            (Sample.db [mk_order (JNum 7) (JNum 10) (JStr "2023-12-31") (JStr "C009")]))) =
    [(200, Json (JObj [("message", JStr "Order replaced")]))]
  /\ orders
       (snd (sample_serve PUT_orders_id
               (Sample.with_id_and_body "7" Sample.body_1001)
               (Sample.db [mk_order (JNum 7) (JNum 10) (JStr "2023-12-31") (JStr "C009")]))) =
       [Sample.order_1001].
Proof.
  pose proof (put_rewrites_the_rows_keyed_by_the_path_id
                Sample.isNumeric Sample.isFloat Sample.isISO8601 Sample.notEmpty
                Sample.sql_eq Sample.stored Sample.insert_id
                (Sample.with_id_and_body "7" Sample.body_1001)
                (Sample.db [mk_order (JNum 7) (JNum 10) (JStr "2023-12-31") (JStr "C009")])
                eq_refl eq_refl eq_refl eq_refl eq_refl)
    as [Hanswer [Htable _]].
  split; [exact Hanswer | exact Htable].
Defined.

Lemma patch_without_amount_witness :
  validationResult (patch_order_chains Sample.isFloat) (Sample.with_id "1001") = []
  /\ queries (fst (sample_serve PATCH_orders_id (Sample.with_id "1001")
                                (Sample.db [Sample.order_1001]))) =
       [(sql_patch_order, [JUndefined; JStr "1001"])]
  /\ orders (snd (sample_serve PATCH_orders_id (Sample.with_id "1001")
                               (Sample.db [Sample.order_1001]))) =
       [mk_order (JNum 1001) JNull (JStr "2024-01-01") (JStr "C001")].
Proof.
  pose proof (patch_without_amount_overwrites_with_null
                Sample.isNumeric Sample.isFloat Sample.isISO8601 Sample.notEmpty
                Sample.sql_eq Sample.stored Sample.insert_id
                (Sample.with_id "1001") (Sample.db [Sample.order_1001])
                eq_refl eq_refl)
    as [Hvalid Hrun].
  destruct (Hrun eq_refl) as [Hevents Htable].
  split; [exact Hvalid |].
  split; [rewrite Hevents; reflexivity | exact Htable].
Defined.

Lemma rejected_statement_witness :
  responses
    (fst (sample_serve DELETE_orders_id (Sample.with_id "1001")
            (Sample.db_failing [Sample.order_1001] [None; Some "Connection lost"]))) =
    [(500, Text "Connection lost")]
  /\ (exists (before : list event) (status : nat) (content : payload),
         fst (sample_serve DELETE_orders_id (Sample.with_id "1001")
                (Sample.db_failing [Sample.order_1001] [None; Some "Connection lost"])) =
         before ++ [EvSend status content; EvEnd 0])
  /\ responses
       (fst (sample_serve_bigint POST_orders (Sample.with_body Sample.body_1001)
               (Sample.db []))) =
       [(500, Text bigint_error)].
Proof.
  pose proof (failure_is_answered_then_connection_released
                Sample.isNumeric Sample.isFloat Sample.isISO8601 Sample.notEmpty
                Sample.sql_eq Sample.stored Sample.insert_id
                DELETE_orders_id (Sample.with_id "1001")
                (Sample.db_failing [Sample.order_1001] [None; Some "Connection lost"]))
    as (_ & _ & Hfail & Hrelease & _).
  pose proof (failure_is_answered_then_connection_released
                Sample.isNumeric Sample.isFloat Sample.isISO8601 Sample.notEmpty
                Sample.sql_eq Sample.stored Sample.insert_id_bigint
                POST_orders (Sample.with_body Sample.body_1001) (Sample.db []))
    as (_ & _ & Hunsent & _).
  split; [| split].
  - apply Hfail. right; left. exists 0, sql_delete_order, [JStr "1001"].
    vm_compute. right; left. reflexivity.
  - apply Hrelease. vm_compute. do 4 right. left. reflexivity.
  - apply Hunsent. right; right. exists "Error inserting order:".
    vm_compute. right; right; left. reflexivity.
Defined.

Lemma statement_connection_witness :
  (acquired (fst (sample_serve DELETE_orders_id (Sample.with_id "1001")
                               (Sample.db [Sample.order_1001]))) = [0]
   /\ released (fst (sample_serve DELETE_orders_id (Sample.with_id "1001")
                                  (Sample.db [Sample.order_1001]))) = [0])
  /\ (queries (fst (sample_serve DELETE_orders_id (Sample.with_id "1001")
                                 (Sample.db_failing [] [Some "Too many connections"]))) = []
      /\ released (fst (sample_serve DELETE_orders_id (Sample.with_id "1001")
                                     (Sample.db_failing [] [Some "Too many connections"]))) = []).
Proof.
  split.
  - apply (proj1 (proj2 (statement_runs_on_the_acquired_connection
                           Sample.isNumeric Sample.isFloat Sample.isISO8601
                           Sample.notEmpty Sample.sql_eq Sample.stored Sample.insert_id
                           DELETE_orders_id (Sample.with_id "1001")
                           (Sample.db [Sample.order_1001])))
             0 sql_delete_order [JStr "1001"] (inr (OkPacket 1 (JNum 0)))).
    vm_compute. right; left. reflexivity.
  - apply (proj2 (proj2 (statement_runs_on_the_acquired_connection
                           Sample.isNumeric Sample.isFloat Sample.isISO8601
                           Sample.notEmpty Sample.sql_eq Sample.stored Sample.insert_id
                           DELETE_orders_id (Sample.with_id "1001")
                           (Sample.db_failing [] [Some "Too many connections"])))
             "Too many connections").
    vm_compute. left. reflexivity.
Defined.

Lemma post_two_faults_witness :
  sample_serve POST_orders (Sample.with_body Sample.body_two_faults) (Sample.db []) =
  ([EvSend 400
      (Errors [mk_verror "ord_no" "Order number must be numeric" (JStr "x");
               mk_verror "ord_no" "Order number must be numeric" (JStr "y");
               mk_verror "customer_id" "Customer ID is required" JUndefined])],
   Sample.db []).
Proof.
  exact (proj1 (proj2 (post_reports_every_failing_field
                         Sample.isNumeric Sample.isFloat Sample.isISO8601
                         Sample.notEmpty Sample.sql_eq Sample.stored
                         Sample.insert_id
                         (Sample.with_body Sample.body_two_faults)
                         (Sample.db [])))
           eq_refl).
Defined.

Lemma put_bad_date_witness :
  sample_serve PUT_orders_id
    (Sample.with_id_and_body "1001" (<["ord_date" := JStr "yesterday"]> Sample.body_1001))
    (Sample.db [Sample.order_1001]) =
  ([EvSend 400
      (Errors [mk_verror "ord_date" "Order date must be a valid date" (JStr "yesterday")])],
   Sample.db [Sample.order_1001]).
Proof.
  exact (proj1 (put_with_a_failing_field_is_rejected_before_the_pool
                  Sample.isNumeric Sample.isFloat Sample.isISO8601 Sample.notEmpty
                  Sample.sql_eq Sample.stored Sample.insert_id
                  (Sample.with_id_and_body "1001"
                     (<["ord_date" := JStr "yesterday"]> Sample.body_1001))
                  (Sample.db [Sample.order_1001])
                  "ord_date" (isISO8601 Sample.isISO8601)
                  (or_intror (or_intror (or_introl eq_refl))) eq_refl)).
Defined.

Lemma patch_bad_amount_witness :
  sample_serve PATCH_orders_id
    (Sample.with_id_and_body "1001" {["purch_amt" := JNull]})
    (Sample.db [Sample.order_1001]) =
  ([EvSend 400
      (Errors [mk_verror "purch_amt" "Purchase amount must be a valid number" JNull])],
   Sample.db [Sample.order_1001])
  /\ sample_serve PATCH_orders_id
       (Sample.with_id_and_body "1001" {["purch_amt" := JArr [JNum 1; JStr "abc"]]})
       (Sample.db [Sample.order_1001]) =
     ([EvSend 400
         (Errors [mk_verror "purch_amt" "Purchase amount must be a valid number"
                    (JStr "abc")])],
      Sample.db [Sample.order_1001]).
Proof.
  split.
  - exact (proj1 (patch_with_a_malformed_amount_is_rejected
                    Sample.isNumeric Sample.isFloat Sample.isISO8601 Sample.notEmpty
                    Sample.sql_eq Sample.stored Sample.insert_id
                    (Sample.with_id_and_body "1001" {["purch_amt" := JNull]})
                    (Sample.db [Sample.order_1001]) eq_refl eq_refl)).
  - exact (proj1 (patch_with_a_malformed_amount_is_rejected
                    Sample.isNumeric Sample.isFloat Sample.isISO8601 Sample.notEmpty
                    Sample.sql_eq Sample.stored Sample.insert_id
                    (Sample.with_id_and_body "1001"
                       {["purch_amt" := JArr [JNum 1; JStr "abc"]]})
                    (Sample.db [Sample.order_1001]) eq_refl eq_refl)).
Defined.

Lemma patch_twice_witness :
  orders
    (snd (sample_serve PATCH_orders_id
            (Sample.with_id_and_body "1001" {["purch_amt" := JNum 200]})
            (snd (sample_serve PATCH_orders_id
                    (Sample.with_id_and_body "1001" {["purch_amt" := JNum 200]})
                    (Sample.db [Sample.order_1001; Sample.order_7]))))) =
  orders
    (snd (sample_serve PATCH_orders_id
            (Sample.with_id_and_body "1001" {["purch_amt" := JNum 200]})
            (Sample.db [Sample.order_1001; Sample.order_7]))).
Proof.
  exact (proj2 (patch_twice_is_patch_once
                  Sample.isNumeric Sample.isFloat Sample.isISO8601 Sample.notEmpty
                  Sample.sql_eq Sample.stored Sample.insert_id
                  (Sample.with_id_and_body "1001" {["purch_amt" := JNum 200]})
                  (Sample.db [Sample.order_1001; Sample.order_7])
                  eq_refl (or_intror eq_refl))).
Defined.

Lemma put_twice_witness :
  orders
    (snd (sample_serve PUT_orders_id (Sample.with_id_and_body "7" Sample.body_1001)
            (snd (sample_serve PUT_orders_id
                    (Sample.with_id_and_body "7" Sample.body_1001)
                    (Sample.db [Sample.order_7]))))) =
  orders
    (snd (sample_serve PUT_orders_id (Sample.with_id_and_body "7" Sample.body_1001)
            (Sample.db [Sample.order_7]))).
Proof.
  exact (proj2 (put_twice_is_put_once
                  Sample.isNumeric Sample.isFloat Sample.isISO8601 Sample.notEmpty
                  Sample.sql_eq Sample.stored Sample.insert_id
                  (Sample.with_id_and_body "7" Sample.body_1001)
                  (Sample.db [Sample.order_7])
                  eq_refl eq_refl eq_refl eq_refl eq_refl)).
Defined.

Lemma put_moves_order_witness :
  responses
    (fst (sample_serve GET_orders_id (Sample.with_id "7")
            (snd (sample_serve PUT_orders_id
                    (Sample.with_id_and_body "7" Sample.body_1001)
                    (Sample.db [Sample.order_7]))))) =
    [(404, Json (JObj [("message", JStr "Order not found")]))]
  /\ responses
       (fst (sample_serve GET_orders_id (Sample.with_id "1001")
               (snd (sample_serve PUT_orders_id
                       (Sample.with_id_and_body "7" Sample.body_1001)
                       (Sample.db [Sample.order_7]))))) =
       [(200, Json (order_row Sample.order_1001))].
Proof.
  pose proof (put_moves_the_order_to_the_number_of_the_body
                Sample.isNumeric Sample.isFloat Sample.isISO8601 Sample.notEmpty
                Sample.sql_eq Sample.stored Sample.insert_id
                (Sample.with_id_and_body "7" Sample.body_1001)
                (Sample.with_id "7") (Sample.with_id "1001")
                (Sample.db [Sample.order_7])
                eq_refl eq_refl eq_refl eq_refl eq_refl eq_refl eq_refl)
    as [Hold Hnew].
  split; [exact Hold |].
  exact (Hnew Sample.order_7 [] eq_refl eq_refl eq_refl).
Defined.

Lemma delete_then_get_witness :
  responses
    (fst (sample_serve GET_orders_id (Sample.with_id "1001")
            (snd (sample_serve DELETE_orders_id (Sample.with_id "1001")
                    (Sample.db [Sample.order_1001; Sample.order_7]))))) =
    [(404, Json (JObj [("message", JStr "Order not found")]))].
Proof.
  exact (proj1 (delete_removes_the_matching_rows
                  Sample.isNumeric Sample.isFloat Sample.isISO8601 Sample.notEmpty
                  Sample.sql_eq Sample.stored Sample.insert_id
                  (Sample.with_id "1001") (Sample.with_id "1001")
                  (Sample.db [Sample.order_1001; Sample.order_7]) eq_refl eq_refl)).
Defined.

Lemma get_orders_witness :
  responses (fst (sample_serve GET_orders (Sample.with_id EmptyString)
                               (Sample.db [Sample.order_7]))) =
    [(200, Json (JArr [order_row Sample.order_7]))]
  /\ responses
       (fst (sample_serve GET_orders (Sample.with_id EmptyString)
               (snd (sample_serve POST_orders (Sample.with_body Sample.body_1001)
                       (Sample.db [Sample.order_7]))))) =
       [(200, Json (JArr [order_row Sample.order_7; order_row Sample.order_1001]))].
Proof.
  pose proof (get_orders_lists_the_table
                Sample.isNumeric Sample.isFloat Sample.isISO8601 Sample.notEmpty
                Sample.sql_eq Sample.stored Sample.insert_id
                (Sample.with_body Sample.body_1001) (Sample.with_id EmptyString)
                (Sample.db [Sample.order_7]) eq_refl)
    as [Hlist Hafter].
  split; [exact Hlist |].
  exact (Hafter eq_refl eq_refl eq_refl eq_refl).
Defined.

Lemma get_first_match_witness :
  exists (o : order) (before after : list order),
    order_row Sample.order_1001 = order_row o
    /\ orders (Sample.db [Sample.order_7; Sample.order_1001]) = before ++ o :: after
    /\ Sample.sql_eq (ord_no o) (JStr "1001") = true
    /\ select_order Sample.sql_eq (JStr "1001") before = [].
Proof.
  exact (get_order_answers_only_with_the_first_matching_row
           Sample.isNumeric Sample.isFloat Sample.isISO8601 Sample.notEmpty
           Sample.sql_eq Sample.stored Sample.insert_id
           (Sample.with_id "1001") (Sample.db [Sample.order_7; Sample.order_1001])
           (order_row Sample.order_1001) eq_refl).
Defined.

(** The scenario of the specification, on the sample instance: create
    order 1001, read it, set its amount to 200, read it, delete it, read
    it again. *)
Example scenario_1001 :
  let w1 := snd (sample_serve POST_orders (Sample.with_body Sample.body_1001)
                              (Sample.db [])) in
  let w2 := snd (sample_serve PATCH_orders_id
                   (Sample.with_id_and_body "1001" {["purch_amt" := JNum 200]}) w1) in
  let w3 := snd (sample_serve DELETE_orders_id (Sample.with_id "1001") w2) in
  responses (fst (sample_serve GET_orders_id (Sample.with_id "1001") w1)) =
    [(200, Json (order_row Sample.order_1001))]
  /\ responses (fst (sample_serve PATCH_orders_id
                       (Sample.with_id_and_body "1001" {["purch_amt" := JNum 200]}) w1)) =
       [(200, Json (JObj [("message", JStr "Order updated")]))]
  /\ responses (fst (sample_serve GET_orders_id (Sample.with_id "1001") w2)) =
       [(200, Json (order_row (mk_order (JNum 1001) (JNum 200) (JStr "2024-01-01")
                                        (JStr "C001"))))]
  /\ responses (fst (sample_serve DELETE_orders_id (Sample.with_id "1001") w2)) =
       [(200, Json (JObj [("message", JStr "Order deleted")]))]
  /\ responses (fst (sample_serve GET_orders_id (Sample.with_id "1001") w3)) =
       [(404, Json (JObj [("message", JStr "Order not found")]))].
Proof. vm_compute. repeat split. Qed.
